(** * Web analytics dashboard: filter store and tile derivation

    A shallow embedding of [webAnalyticsLogic] (the kea logic holding the
    property filters and the three tab selections, with its [tiles]
    selector) and of the breakdown cell of [WebDashboard.tsx], followed by
    the properties of the toggle reducer and of the derived tiles. *)

From Stdlib Require Import String Ascii List Bool ZArith Lia.
Import ListNotations.
Open Scope string_scope.
Open Scope list_scope.

(** ** JavaScript helpers used by the source *)

(** [s.startsWith(p)] *)
Fixpoint startsWith (s p : string) {struct p} : bool :=
  match p with
  | EmptyString => true
  | String c p' =>
      match s with
      | EmptyString => false
      | String d s' => Ascii.eqb d c && startsWith s' p'
      end
  end.

(** [xs.includes(x)] on an array of strings *)
Definition includes (xs : list string) (x : string) : bool :=
  existsb (String.eqb x) xs.

(** [xs.filter(isNotNil)] where [null] is [None]; [isNotNil] (from
    [lib/utils]) keeps what is neither [null] nor [undefined]. *)
Fixpoint filter_isNotNil {A : Type} (xs : list (option A)) : list A :=
  match xs with
  | [] => []
  | None :: r => filter_isNotNil r
  | Some a :: r => a :: filter_isNotNil r
  end.

(** ** Data model *)

(** Modelled from the spec: [PropertyFilterType], declared in [~/types];
    a filter of the list is an event filter or a computed (HogQL) one. *)
Inductive PropertyFilterType := Event | HogQL.

(** Modelled from the spec: [PropertyOperator], declared in [~/types].
    The reducer only ever compares an operator with [Exact]; the other
    members stand for the operators that are not [Exact]. *)
Inductive PropertyOperator :=
  | Exact | IsNot | IContains | NotIContains | Regex | NotRegex
  | GreaterThan | LessThan | IsSet | IsNotSet.

(** A primitive stored in a filter value: [null]/[undefined], a string or a
    number. Numbers are never computed with, only compared for identity. *)
Inductive Prim :=
  | PNil
  | PStr (s : string)
  | PNum (n : Z).

(** [PropertyFilterValue]: one primitive or an array of them. *)
Inductive PropertyFilterValue :=
  | VPrim (p : Prim)
  | VArr (xs : list Prim).

(** A property filter object. A field that the object does not have is
    [None]. *)
Record PropertyFilter := mkFilter {
  type : PropertyFilterType;
  key : string;
  operator : option PropertyOperator;
  value : option PropertyFilterValue
}.

Definition WebAnalyticsPropertyFilters := list PropertyFilter.

Definition PropertyFilterType_eqb (a b : PropertyFilterType) : bool :=
  match a, b with
  | Event, Event | HogQL, HogQL => true
  | _, _ => false
  end.

Definition isExact (o : option PropertyOperator) : bool :=
  match o with
  | Some Exact => true
  | _ => false
  end.

Definition Prim_eqb (a b : Prim) : bool :=
  match a, b with
  | PNil, PNil => true
  | PStr s, PStr t => String.eqb s t
  | PNum n, PNum m => Z.eqb n m
  | _, _ => false
  end.

Definition isNotNil (p : Prim) : bool :=
  match p with
  | PNil => false
  | _ => true
  end.

(** ** The filter store *)

Definition initialWebAnalyticsFilter : WebAnalyticsPropertyFilters := [].

Definition setOncePropertyNames : list string :=
  ["$initial_pathname"; "$initial_referrer"; "$initial_utm_source";
   "$initial_utm_campaign"].

Definition hogqlForSetOnceProperty (key value : string) : string :=
  "properties.$set_once." ++ key ++ " = '" ++ value ++ "'".

Definition isHogqlForSetOnceProperty (key_ : string) (p : PropertyFilter) : bool :=
  includes setOncePropertyNames key_
  && startsWith (key p) ("properties.$set_once." ++ key_ ++ " = ").

(** The predicate handed to [oldPropertyFilters.some]. *)
Definition matchesKey (key_ : string) (f : PropertyFilter) : bool :=
  (PropertyFilterType_eqb (type f) Event
   && String.eqb (key f) key_
   && isExact (operator f))
  || (PropertyFilterType_eqb (type f) HogQL
      && isHogqlForSetOnceProperty key_ f).

(** [(Array.isArray(f.value) ? f.value : [f.value]).filter(isNotNil)] *)
Definition oldValueOf (f : PropertyFilter) : list Prim :=
  filter isNotNil
    match value f with
    | Some (VArr xs) => xs
    | Some (VPrim p) => [p]
    | None => [PNil]
    end.

(** The function handed to [oldPropertyFilters.map]; [None] is [null]. *)
Definition toggleOne (key_ value_ : string) (f : PropertyFilter)
  : option PropertyFilter :=
  if includes setOncePropertyNames key_ then
    if negb (PropertyFilterType_eqb (type f) HogQL) then Some f
    else if negb (isHogqlForSetOnceProperty key_ f) then Some f
    else
      let hogql := hogqlForSetOnceProperty key_ value_ in
      if String.eqb (key f) hogql then None
      else Some {| type := HogQL; key := key_; operator := None;
                   value := Some (VPrim (PStr hogql)) |}
  else
    if negb (String.eqb (key f) key_)
       || negb (PropertyFilterType_eqb (type f) Event)
       || negb (isExact (operator f))
    then Some f
    else
      let oldValue := oldValueOf f in
      if existsb (Prim_eqb (PStr value_)) oldValue then
        if (1 <? length oldValue)%nat then
          Some {| type := Event; key := key_; operator := Some Exact;
                  value := Some (VArr [PStr value_]) |}
        else None
      else
        Some {| type := Event; key := key_; operator := Some Exact;
                value := Some (VArr (oldValue ++ [PStr value_])) |}.

(** The filter appended when nothing matches. *)
Definition newFilter (key_ value_ : string) : PropertyFilter :=
  if includes setOncePropertyNames key_ then
    {| type := HogQL; key := hogqlForSetOnceProperty key_ value_;
       operator := None; value := None |}
  else
    {| type := Event; key := key_; operator := Some Exact;
       value := Some (VPrim (PStr value_)) |}.

(** The [togglePropertyFilter] reducer. *)
Definition togglePropertyFilter (oldPropertyFilters : WebAnalyticsPropertyFilters)
    (key_ value_ : string) : WebAnalyticsPropertyFilters :=
  if existsb (matchesKey key_) oldPropertyFilters then
    filter_isNotNil (map (toggleOne key_ value_) oldPropertyFilters)
  else
    oldPropertyFilters ++ [newFilter key_ value_].

(** The [setWebAnalyticsFilters] reducer. *)
Definition setWebAnalyticsFilters (_ : WebAnalyticsPropertyFilters)
    (webAnalyticsFilters : WebAnalyticsPropertyFilters) : WebAnalyticsPropertyFilters :=
  webAnalyticsFilters.

(** A run of toggles, oldest first. *)
Definition toggleAll (fs : WebAnalyticsPropertyFilters)
    (ops : list (string * string)) : WebAnalyticsPropertyFilters :=
  fold_left (fun acc kv => togglePropertyFilter acc (fst kv) (snd kv)) ops fs.

(** ** Tabs *)

Module SourceTab.
Definition REFERRING_DOMAIN := "REFERRING_DOMAIN".
Definition UTM_SOURCE := "UTM_SOURCE".
Definition UTM_CAMPAIGN := "UTM_CAMPAIGN".
End SourceTab.

Module DeviceTab.
Definition BROWSER := "BROWSER".
Definition OS := "OS".
Definition DEVICE_TYPE := "DEVICE_TYPE".
End DeviceTab.

Module PathTab.
Definition PATH := "PATH".
Definition INITIAL_PATH := "INITIAL_PATH".
End PathTab.

(** ** Queries and tiles *)

(** Modelled from the spec: the closed breakdown enumeration
    [WebStatsBreakdown], declared in [~/queries/schema]; its eight members
    are the rows of the breakdown table. *)
Inductive WebStatsBreakdown :=
  | Page | InitialPage | InitialReferringDomain | InitialUTMSource
  | InitialUTMCampaign | Browser | OS | DeviceType.

(** Modelled from the spec: [BaseMathType] and [ChartDisplayType],
    declared in [~/types]; only the members the selector names are
    listed. *)
Inductive BaseMathType := UniqueUsers.
Inductive ChartDisplayType := ActionsLineGraph | WorldMap.

Record BreakdownFilter := {
  breakdown : string;
  breakdown_type : string
}.

Record DateRange := {
  date_from : option string;
  date_to : option string
}.

(** A series entry, [kind: NodeKind.EventsNode]. *)
Record EventsNode := {
  event : string;
  math : BaseMathType;
  name : option string
}.

Record TrendsFilter := {
  compare : option bool;
  display : ChartDisplayType
}.

Record TrendsQueryFields := {
  trends_breakdown : option BreakdownFilter;
  dateRange : DateRange;
  interval : option string;
  series : list EventsNode;
  trendsFilter : TrendsFilter;
  trends_filterTestAccounts : option bool;
  trends_properties : WebAnalyticsPropertyFilters
}.

(** The [source] of a query node, tagged by its [kind]. The two web
    queries are written with a [properties] field only (and [breakdownBy]
    for the table). *)
Inductive QuerySource :=
  | WebOverviewStatsQuery (properties_ : WebAnalyticsPropertyFilters)
  | WebStatsTableQuery (properties_ : WebAnalyticsPropertyFilters)
      (breakdownBy : WebStatsBreakdown)
  | TrendsQuery (q : TrendsQueryFields).

(** A query node, tagged by its [kind]. *)
Inductive QuerySchema :=
  | DataTableNode (full : bool) (source : QuerySource)
  | InsightVizNode (source : QuerySource).

Definition sourceOf (q : QuerySchema) : QuerySource :=
  match q with
  | DataTableNode _ s => s
  | InsightVizNode s => s
  end.

(** [source.properties] *)
Definition properties (s : QuerySource) : WebAnalyticsPropertyFilters :=
  match s with
  | WebOverviewStatsQuery ps => ps
  | WebStatsTableQuery ps _ => ps
  | TrendsQuery q => trends_properties q
  end.

(** [source.filterTestAccounts]; [None] where the object has no such
    field. *)
Definition filterTestAccounts (s : QuerySource) : option bool :=
  match s with
  | WebOverviewStatsQuery _ => None
  | WebStatsTableQuery _ _ => None
  | TrendsQuery q => trends_filterTestAccounts q
  end.

Record Layout := {
  colSpan : option nat;
  rowSpan : option nat
}.

Record Tab := {
  id : string;
  title : string;
  linkText : string;
  query : QuerySchema
}.

(** The action creators of the logic that a tile can carry as [setTabId]. *)
Inductive TabSetter := setPathTab | setSourceTab | setDeviceTab.

Inductive WebDashboardTile :=
  | QueryTile (layout : Layout) (title_ : option string) (query_ : QuerySchema)
  | TabsTile (layout : Layout) (activeTabId : string) (setTabId : TabSetter)
      (tabs : list Tab).

Definition statsTab (id_ title_ linkText_ : string)
    (webAnalyticsFilters : WebAnalyticsPropertyFilters)
    (b : WebStatsBreakdown) : Tab :=
  {| id := id_; title := title_; linkText := linkText_;
     query := DataTableNode true (WebStatsTableQuery webAnalyticsFilters b) |}.

(** The [tiles] selector. *)
Definition tiles (webAnalyticsFilters : WebAnalyticsPropertyFilters)
    (pathTab deviceTab sourceTab : string) : list WebDashboardTile :=
  [ QueryTile {| colSpan := Some 12; rowSpan := None |} None
      (DataTableNode true (WebOverviewStatsQuery webAnalyticsFilters));
    TabsTile {| colSpan := Some 6; rowSpan := None |} pathTab setPathTab
      [ statsTab PathTab.PATH "Top Paths" "Path" webAnalyticsFilters Page;
        statsTab PathTab.INITIAL_PATH "Top Entry Paths" "Entry Path"
          webAnalyticsFilters InitialPage ];
    TabsTile {| colSpan := Some 6; rowSpan := None |} sourceTab setSourceTab
      [ statsTab SourceTab.REFERRING_DOMAIN "Top Referrers" "Referrer"
          webAnalyticsFilters InitialReferringDomain;
        statsTab SourceTab.UTM_SOURCE "Top Sources" "UTM Source"
          webAnalyticsFilters InitialUTMSource;
        statsTab SourceTab.UTM_CAMPAIGN "Top Campaigns" "UTM Campaign"
          webAnalyticsFilters InitialUTMCampaign ];
    TabsTile {| colSpan := Some 6; rowSpan := None |} deviceTab setDeviceTab
      [ statsTab DeviceTab.BROWSER "Top Browsers" "Browser"
          webAnalyticsFilters Browser;
        statsTab DeviceTab.OS "Top OSs" "OS" webAnalyticsFilters OS;
        statsTab DeviceTab.DEVICE_TYPE "Top Device Types" "Device Type"
          webAnalyticsFilters DeviceType ];
    QueryTile {| colSpan := Some 6; rowSpan := None |} (Some "Unique users")
      (InsightVizNode (TrendsQuery
         {| trends_breakdown := None;
            dateRange := {| date_from := Some "-7d"; date_to := Some "-1d" |};
            interval := Some "day";
            series := [ {| event := "$pageview"; math := UniqueUsers;
                           name := Some "$pageview" |} ];
            trendsFilter := {| compare := Some true;
                               display := ActionsLineGraph |};
            trends_filterTestAccounts := Some true;
            trends_properties := webAnalyticsFilters |}));
    QueryTile {| colSpan := Some 6; rowSpan := None |}
      (Some "World Map (Unique Users)")
      (InsightVizNode (TrendsQuery
         {| trends_breakdown :=
              Some {| breakdown := "$geoip_country_code";
                      breakdown_type := "person" |};
            dateRange := {| date_from := Some "-7d"; date_to := None |};
            interval := None;
            series := [ {| event := "$pageview"; math := UniqueUsers;
                           name := None |} ];
            trendsFilter := {| compare := None; display := WorldMap |};
            trends_filterTestAccounts := Some true;
            trends_properties := webAnalyticsFilters |})) ].

(** Every query a tile embeds, in order. *)
Definition tileQueries (t : WebDashboardTile) : list QuerySchema :=
  match t with
  | QueryTile _ _ q => [q]
  | TabsTile _ _ _ ts => map query ts
  end.

(** ** The store and its actions *)

Record State := {
  webAnalyticsFilters : WebAnalyticsPropertyFilters;
  sourceTab : string;
  deviceTab : string;
  pathTab : string
}.

Definition initialState : State :=
  {| webAnalyticsFilters := initialWebAnalyticsFilter;
     sourceTab := SourceTab.REFERRING_DOMAIN;
     deviceTab := DeviceTab.BROWSER;
     pathTab := PathTab.PATH |}.

Inductive Action :=
  | SetWebAnalyticsFilters (fs : WebAnalyticsPropertyFilters)
  | TogglePropertyFilter (key_ value_ : string)
  | SetSourceTab (tab : string)
  | SetDeviceTab (tab : string)
  | SetPathTab (tab : string).

(** The four reducers, run on one dispatched action. *)
Definition reduce (s : State) (a : Action) : State :=
  match a with
  | SetWebAnalyticsFilters fs =>
      {| webAnalyticsFilters := setWebAnalyticsFilters (webAnalyticsFilters s) fs;
         sourceTab := sourceTab s; deviceTab := deviceTab s;
         pathTab := pathTab s |}
  | TogglePropertyFilter k v =>
      {| webAnalyticsFilters := togglePropertyFilter (webAnalyticsFilters s) k v;
         sourceTab := sourceTab s; deviceTab := deviceTab s;
         pathTab := pathTab s |}
  | SetSourceTab tab =>
      {| webAnalyticsFilters := webAnalyticsFilters s;
         sourceTab := tab; deviceTab := deviceTab s; pathTab := pathTab s |}
  | SetDeviceTab tab =>
      {| webAnalyticsFilters := webAnalyticsFilters s;
         sourceTab := sourceTab s; deviceTab := tab; pathTab := pathTab s |}
  | SetPathTab tab =>
      {| webAnalyticsFilters := webAnalyticsFilters s;
         sourceTab := sourceTab s; deviceTab := deviceTab s; pathTab := tab |}
  end.

(** ** The breakdown cell of the dashboard *)

(** What [source.breakdownBy] holds when the [switch] runs: a member of
    the enumeration or, were the type checker bypassed, some other value,
    which only the [default] branch accepts. *)
Inductive BreakdownByValue :=
  | Member (b : WebStatsBreakdown)
  | NotMember (raw : string).

(** Outcome of a component: it throws [UnexpectedNeverError], returns
    [null], or returns markup. *)
Inductive Rendered (A : Type) :=
  | Throws (raw : string)
  | Null
  | Markup (a : A).
Arguments Throws {A} raw.
Arguments Null {A}.
Arguments Markup {A} a.

(** The [switch] of [BreakdownValueCell]. *)
Definition propertyNameSwitch (breakdownBy : BreakdownByValue)
  : Rendered string :=
  match breakdownBy with
  | Member Page => Markup "$pathname"
  | Member InitialPage => Markup "$initial_pathname"
  | Member InitialReferringDomain => Markup "$initial_referrer"
  | Member InitialUTMSource => Markup "$initial_utm_source"
  | Member InitialUTMCampaign => Markup "$initial_utm_campaign"
  | Member Browser => Markup "$browser"
  | Member OS => Markup "$os"
  | Member DeviceType => Markup "$device_type"
  | NotMember raw => Throws raw
  end.

(** The [switch] of [BreakdownValueTitle]. *)
Definition titleSwitch (breakdownBy : BreakdownByValue) : Rendered string :=
  match breakdownBy with
  | Member Page => Markup "Path"
  | Member InitialPage => Markup "Initial Path"
  | Member InitialReferringDomain => Markup "Referring Domain"
  | Member InitialUTMSource => Markup "UTM Source"
  | Member InitialUTMCampaign => Markup "UTM Campaign"
  | Member Browser => Markup "Browser"
  | Member OS => Markup "OS"
  | Member DeviceType => Markup "Device Type"
  | NotMember raw => Throws raw
  end.

(** [<a onClick={onClick}>{value}</a>]: the link text and the action its
    click dispatches. *)
Record Link := {
  onClick : Action;
  text : string
}.

(** [BreakdownValueCell] on the cell [value_] of a row of [query_]. *)
Definition BreakdownValueCell (value_ : Prim) (query_ : QuerySchema)
  : Rendered Link :=
  match sourceOf query_ with
  | WebStatsTableQuery _ breakdownBy =>
      match value_ with
      | PStr v =>
          match propertyNameSwitch (Member breakdownBy) with
          | Markup propertyName =>
              Markup {| onClick := TogglePropertyFilter propertyName v;
                        text := v |}
          | Throws raw => Throws raw
          | Null => Null
          end
      | _ => Null
      end
  | _ => Null
  end.

(** [BreakdownValueTitle] for the column of [query_]. *)
Definition BreakdownValueTitle (query_ : QuerySchema) : Rendered string :=
  match sourceOf query_ with
  | WebStatsTableQuery _ breakdownBy => titleSwitch (Member breakdownBy)
  | _ => Null
  end.

(** The table of the specification: breakdown to toggled property name. *)
Definition breakdownPropertyTable : list (WebStatsBreakdown * string) :=
  [ (Page, "$pathname"); (InitialPage, "$initial_pathname");
    (InitialReferringDomain, "$initial_referrer");
    (InitialUTMSource, "$initial_utm_source");
    (InitialUTMCampaign, "$initial_utm_campaign");
    (Browser, "$browser"); (OS, "$os"); (DeviceType, "$device_type") ].

(** ** Predicates used in the statements *)

(** The filter's [key] field is [key_]. *)
Definition keyIs (key_ : string) (f : PropertyFilter) : bool :=
  String.eqb (key f) key_.

(** An [Event] filter for [key_] with operator [Exact]. *)
Definition isExactEventFor (key_ : string) (f : PropertyFilter) : bool :=
  PropertyFilterType_eqb (type f) Event
  && String.eqb (key f) key_
  && isExact (operator f).


Definition isTrendsQuery (s : QuerySource) : bool :=
  match s with
  | TrendsQuery _ => true
  | _ => false
  end.

(** A store built by event toggles: distinct keys, each filter an [Exact]
    event filter. *)
Definition eventStore (fs : WebAnalyticsPropertyFilters) : Prop :=
  NoDup (map key fs)
  /\ Forall (fun f => isExactEventFor (key f) f = true) fs.






(** An [Event] filter. *)
Definition isEventFilter (f : PropertyFilter) : bool :=
  PropertyFilterType_eqb (type f) Event.

(** The breakdowns over the properties of the first visit. *)
Definition isInitialBreakdown (b : WebStatsBreakdown) : bool :=
  match b with
  | InitialPage | InitialReferringDomain | InitialUTMSource
  | InitialUTMCampaign => true
  | _ => false
  end.

(** ** The dashboard component

    [WebAnalyticsDashboard] maps every tile to a grid cell or to [null].
    The markup is kept as the data it is built from: the two span numbers
    of the class name, the heading, the tab links and the query handed to
    [Query]. The filter picker above the grid is not part of this model. *)

(** [setTabId(id)] *)
Definition callSetTabId (setTabId : TabSetter) (id_ : string) : Action :=
  match setTabId with
  | setPathTab => SetPathTab id_
  | setSourceTab => SetSourceTab id_
  | setDeviceTab => SetDeviceTab id_
  end.

(** [a ?? b] *)
Definition nullish {A : Type} (a : option A) (b : A) : A :=
  match a with
  | Some x => x
  | None => b
  end.

(** One [<a>] of a tab group: its [key], whether it has the class
    [text-link] (the active tab), what its click dispatches, and its
    text. *)
Record TabLink := {
  link_key : string;
  link_active : bool;
  link_onClick : Action;
  link_text : string
}.

(** One grid cell: [md:col-span-], [md:row-span-], the [<h2>] when there
    is one, the tab links, and the [key] and [query] of [Query]. *)
Record TileView := {
  md_col_span : nat;
  md_row_span : nat;
  heading : option string;
  links : list TabLink;
  shown_key : option string;
  shown_query : QuerySchema
}.

(** The callback of [tiles.map]; [None] is [null]. *)
Definition renderTile (tile : WebDashboardTile) : option TileView :=
  match tile with
  | QueryTile layout title_ query_ =>
      Some {| md_col_span := nullish (colSpan layout) 6;
              md_row_span := nullish (rowSpan layout) 1;
              heading := match title_ with
                         | Some EmptyString => None
                         | Some t => Some t
                         | None => None
                         end;
              links := [];
              shown_key := None;
              shown_query := query_ |}
  | TabsTile layout activeTabId setTabId tabs =>
      match find (fun t => String.eqb (id t) activeTabId) tabs with
      | None => None
      | Some tab =>
          Some {| md_col_span := nullish (colSpan layout) 6;
                  md_row_span := nullish (rowSpan layout) 1;
                  heading := Some (title tab);
                  links :=
                    if (1 <? length tabs)%nat then
                      map (fun t =>
                             {| link_key := id t;
                                link_active := String.eqb (id t) activeTabId;
                                link_onClick := callSetTabId setTabId (id t);
                                link_text := linkText t |}) tabs
                    else [];
                  shown_key := Some activeTabId;
                  shown_query := query tab |}
      end
  end.

(** The grid of [WebAnalyticsDashboard] for the values of the logic. *)
Definition WebAnalyticsDashboard (st : State) : list (option TileView) :=
  map renderTile
    (tiles (webAnalyticsFilters st) (pathTab st) (deviceTab st) (sourceTab st)).

(** Whether something is rendered. *)
Definition isRendered {A : Type} (o : option A) : bool :=
  match o with
  | Some _ => true
  | None => false
  end.

(** What the toggles keep true of an event filter: its operator is
    [Exact] and its values are at least one, without repetition. *)
Definition eventValuesOk (f : PropertyFilter) : Prop :=
  type f = Event ->
  operator f = Some Exact /\ oldValueOf f <> [] /\ NoDup (oldValueOf f).

(** The ids each tab group knows. *)
Definition isPathTab (tab : string) : bool :=
  includes [PathTab.PATH; PathTab.INITIAL_PATH] tab.

Definition isSourceTab (tab : string) : bool :=
  includes [SourceTab.REFERRING_DOMAIN; SourceTab.UTM_SOURCE;
            SourceTab.UTM_CAMPAIGN] tab.

Definition isDeviceTab (tab : string) : bool :=
  includes [DeviceTab.BROWSER; DeviceTab.OS; DeviceTab.DEVICE_TYPE] tab.

(** * Properties *)

(** Settles a goal about one query picked out of a tile's list. *)
Ltac each_query :=
  repeat match goal with
         | H : _ \/ _ |- _ => destruct H as [H | H]
         | H : False |- _ => contradiction
         | H : _ = _ |- _ => subst
         end;
  split; reflexivity.

(** ** Strings *)

Lemma string_app_assoc (a b c : string) :
  ((a ++ b) ++ c = a ++ (b ++ c))%string.
Proof.
  induction a as [|x a IH]; simpl; [reflexivity | now rewrite IH].
Qed.

Lemma startsWith_app (p s : string) : startsWith (p ++ s)%string p = true.
Proof.
  induction p as [|c p IH]; simpl; [reflexivity|].
  now rewrite Ascii.eqb_refl, IH.
Qed.

Lemma string_app_inv_head (p a b : string) :
  (p ++ a = p ++ b)%string -> a = b.
Proof.
  induction p as [|c p IH]; simpl; intros H; [exact H|].
  injection H as H. now apply IH.
Qed.

Lemma string_app_inv_tail1 (c : ascii) (a b : string) :
  (a ++ String c "" = b ++ String c "")%string -> a = b.
Proof.
  revert b. induction a as [|x a IH]; intros [|y b] H; simpl in H.
  - reflexivity.
  - injection H as _ H. destruct b; discriminate.
  - injection H as _ H. destruct a; discriminate.
  - injection H as -> H. f_equal. now apply IH.
Qed.

Lemma hogql_startsWith (k v : string) :
  startsWith (hogqlForSetOnceProperty k v)
    ("properties.$set_once." ++ k ++ " = ")%string = true.
Proof.
  unfold hogqlForSetOnceProperty.
  replace ("properties.$set_once." ++ k ++ " = '" ++ v ++ "'")%string
    with (("properties.$set_once." ++ k ++ " = ") ++ ("'" ++ v ++ "'"))%string.
  - apply startsWith_app.
  - rewrite !string_app_assoc. reflexivity.
Qed.

Lemma hogql_inj (k v1 v2 : string) :
  hogqlForSetOnceProperty k v1 = hogqlForSetOnceProperty k v2 -> v1 = v2.
Proof.
  unfold hogqlForSetOnceProperty. intros H.
  apply string_app_inv_head in H. apply string_app_inv_head in H.
  apply (string_app_inv_head " = '") in H.
  now apply string_app_inv_tail1 in H.
Qed.

(** ** The reducer, filter by filter *)

Lemma filter_isNotNil_app {A : Type} (xs ys : list (option A)) :
  filter_isNotNil (xs ++ ys) = filter_isNotNil xs ++ filter_isNotNil ys.
Proof.
  induction xs as [|[a|] xs IH]; simpl; [reflexivity | now rewrite IH | exact IH].
Qed.

Lemma matchesKey_event (k : string) (f : PropertyFilter) :
  includes setOncePropertyNames k = false ->
  matchesKey k f = isExactEventFor k f.
Proof.
  intros Hk. unfold matchesKey, isHogqlForSetOnceProperty, isExactEventFor.
  rewrite Hk. simpl. now rewrite andb_false_r, orb_false_r.
Qed.

Lemma toggleOne_unmatched (k v : string) (f : PropertyFilter) :
  matchesKey k f = false -> toggleOne k v f = Some f.
Proof.
  unfold matchesKey, toggleOne, isHogqlForSetOnceProperty.
  destruct (includes setOncePropertyNames k); simpl; intros H.
  - apply orb_false_iff in H as [_ H].
    destruct (PropertyFilterType_eqb (type f) HogQL); simpl in *; [|reflexivity].
    now rewrite H.
  - rewrite andb_false_r, orb_false_r in H.
    destruct (String.eqb (key f) k); simpl in *; [|reflexivity].
    destruct (PropertyFilterType_eqb (type f) Event); simpl in *; [|reflexivity].
    now rewrite H.
Qed.

Lemma toggle_map_unmatched (k v : string) (fs : WebAnalyticsPropertyFilters) :
  existsb (matchesKey k) fs = false ->
  filter_isNotNil (map (toggleOne k v) fs) = fs.
Proof.
  induction fs as [|f fs IH]; simpl; intros H; [reflexivity|].
  apply orb_false_iff in H as [Hf Hfs].
  now rewrite (toggleOne_unmatched _ _ _ Hf), IH.
Qed.

Lemma toggle_unmatched (k v : string) (fs : WebAnalyticsPropertyFilters) :
  existsb (matchesKey k) fs = false ->
  togglePropertyFilter fs k v = fs ++ [newFilter k v].
Proof.
  intros H. unfold togglePropertyFilter. now rewrite H.
Qed.

Lemma toggle_matched (k v : string) (fs : WebAnalyticsPropertyFilters) :
  existsb (matchesKey k) fs = true ->
  togglePropertyFilter fs k v = filter_isNotNil (map (toggleOne k v) fs).
Proof.
  intros H. unfold togglePropertyFilter. now rewrite H.
Qed.

Lemma newFilter_matches (k v : string) : matchesKey k (newFilter k v) = true.
Proof.
  unfold matchesKey, newFilter, isHogqlForSetOnceProperty.
  destruct (includes setOncePropertyNames k) eqn:Hk;
    cbn [type key operator value PropertyFilterType_eqb isExact andb orb].
  - apply hogql_startsWith.
  - now rewrite String.eqb_refl.
Qed.

Lemma toggleOne_newFilter_same (k v : string) :
  toggleOne k v (newFilter k v) = None.
Proof.
  unfold toggleOne, newFilter, isHogqlForSetOnceProperty.
  destruct (includes setOncePropertyNames k) eqn:Hk;
    cbn [type key operator value PropertyFilterType_eqb isExact andb orb negb].
  - now rewrite hogql_startsWith, String.eqb_refl.
  - rewrite String.eqb_refl. cbn. now rewrite String.eqb_refl.
Qed.

Lemma existsb_matches_app_new (k v : string) (fs : WebAnalyticsPropertyFilters) :
  existsb (matchesKey k) (fs ++ [newFilter k v]) = true.
Proof.
  rewrite existsb_app. simpl. rewrite newFilter_matches.
  now rewrite orb_true_r.
Qed.

Lemma Prim_eqb_refl (p : Prim) : Prim_eqb p p = true.
Proof.
  destruct p; simpl; [reflexivity | apply String.eqb_refl | apply Z.eqb_refl].
Qed.

Lemma includes_Prim (p : Prim) (xs : list Prim) :
  In p xs -> existsb (Prim_eqb p) xs = true.
Proof.
  intros H. apply existsb_exists. exists p. split; [exact H | apply Prim_eqb_refl].
Qed.

Lemma filter_none {A : Type} (p : A -> bool) (xs : list A) :
  existsb p xs = false -> filter p xs = [].
Proof.
  induction xs as [|x xs IH]; simpl; intros H; [reflexivity|].
  apply orb_false_iff in H as [Hx Hxs]. rewrite Hx. now apply IH.
Qed.

Lemma isExact_false (o : option PropertyOperator) :
  o <> Some Exact -> isExact o = false.
Proof.
  destruct o as [[]|]; simpl; intros H; congruence.
Qed.

Lemma isExactEventFor_keyIs (k : string) (f : PropertyFilter) :
  isExactEventFor k f = true -> keyIs k f = true.
Proof.
  unfold isExactEventFor, keyIs. intros H.
  apply andb_true_iff in H as [H _]. now apply andb_true_iff in H as [_ H].
Qed.

Lemma no_key_no_match (k : string) (fs : WebAnalyticsPropertyFilters) :
  includes setOncePropertyNames k = false ->
  existsb (keyIs k) fs = false ->
  existsb (matchesKey k) fs = false.
Proof.
  intros Hk. induction fs as [|f fs IH]; simpl; intros H; [reflexivity|].
  apply orb_false_iff in H as [Hf Hfs]. rewrite (IH Hfs), orb_false_r.
  rewrite (matchesKey_event _ _ Hk).
  destruct (isExactEventFor k f) eqn:E; [|reflexivity].
  apply isExactEventFor_keyIs in E. congruence.
Qed.

Lemma existsb_matchesKey_event (k : string) (fs : WebAnalyticsPropertyFilters) :
  includes setOncePropertyNames k = false ->
  existsb (matchesKey k) fs = existsb (isExactEventFor k) fs.
Proof.
  intros Hk. induction fs as [|f fs IH]; simpl; [reflexivity|].
  now rewrite IH, (matchesKey_event _ _ Hk).
Qed.

(** For a key outside the set-once names, a filter that is not an exact
    event filter for the key goes through the [map] untouched. *)
Lemma toggleOne_event_other (k v : string) (g : PropertyFilter) :
  includes setOncePropertyNames k = false ->
  isExactEventFor k g = false ->
  toggleOne k v g = Some g.
Proof.
  intros Hk Hg. apply toggleOne_unmatched. now rewrite matchesKey_event.
Qed.

(** ... and an exact event filter for the key is dropped or stays one. *)
Lemma toggleOne_event_same (k v : string) (g : PropertyFilter) :
  includes setOncePropertyNames k = false ->
  isExactEventFor k g = true ->
  toggleOne k v g = None
  \/ exists g', toggleOne k v g = Some g' /\ isExactEventFor k g' = true.
Proof.
  intros Hk Hg. unfold toggleOne. rewrite Hk.
  unfold isExactEventFor in Hg.
  apply andb_true_iff in Hg as [Hg Hop]. apply andb_true_iff in Hg as [Hty Hkey].
  rewrite Hty, Hkey, Hop. cbn [negb orb].
  assert (Hnew : forall xs, isExactEventFor k
            {| type := Event; key := k; operator := Some Exact;
               value := Some (VArr xs) |} = true).
  { intros xs. unfold isExactEventFor. cbn. now rewrite String.eqb_refl. }
  destruct (existsb _ _).
  - destruct (_ <? _)%nat; [right; eexists; split; [reflexivity | apply Hnew] | now left].
  - right; eexists; split; [reflexivity | apply Hnew].
Qed.

Lemma toggle_map_keeps_others (k v : string) (fs : WebAnalyticsPropertyFilters) :
  includes setOncePropertyNames k = false ->
  filter (fun g => negb (isExactEventFor k g))
    (filter_isNotNil (map (toggleOne k v) fs))
  = filter (fun g => negb (isExactEventFor k g)) fs.
Proof.
  intros Hk. induction fs as [|g fs IH]; [reflexivity|].
  cbn [map filter_isNotNil filter].
  destruct (isExactEventFor k g) eqn:E.
  - destruct (toggleOne_event_same k v g Hk E) as [-> | (g' & -> & E')];
      cbn [filter_isNotNil negb filter]; [exact IH|].
    now rewrite E'.
  - rewrite (toggleOne_event_other k v g Hk E).
    cbn [filter_isNotNil filter]. rewrite E. cbn [negb]. now rewrite IH.
Qed.

(** ** Statements about the reducer *)

(** C5. For every filter list [S] and every key and value such that no
    filter of [S] matches the key, toggling the same key and value twice in
    succession gives back [S], for event keys and set-once keys alike. *)
Theorem double_toggle_identity (S : WebAnalyticsPropertyFilters) (k v : string) :
  existsb (matchesKey k) S = false ->
  togglePropertyFilter (togglePropertyFilter S k v) k v = S.
Proof.
  intros H. rewrite (toggle_unmatched k v S H).
  rewrite toggle_matched by apply existsb_matches_app_new.
  rewrite map_app, filter_isNotNil_app, (toggle_map_unmatched k v S H).
  cbn [map filter_isNotNil]. rewrite toggleOne_newFilter_same.
  apply app_nil_r.
Qed.

Lemma double_toggle_identity_witness :
  let S := [ {| type := Event; key := "$browser"; operator := Some Exact;
                value := Some (VArr [PStr "Chrome"; PStr "Firefox"]) |};
             {| type := Event; key := "$initial_referrer";
                operator := Some IsNot; value := Some (VPrim (PStr "a.io")) |} ] in
  existsb (matchesKey "$initial_referrer") S = false
  /\ togglePropertyFilter
       (togglePropertyFilter S "$initial_referrer" "b.io")
       "$initial_referrer" "b.io" = S.
Proof.
  intros S. split; [reflexivity|].
  apply (double_toggle_identity S "$initial_referrer" "b.io"). reflexivity.
Defined.

(** C3 (amended). When no filter matches the key, the toggle appends one
    new filter: for an event key an [Event] filter with operator [Exact]
    whose value is the toggled string itself (not wrapped in an array; it
    normalises to the one-element list), for a set-once key a [HogQL]
    filter whose key is the generated expression; from the empty list,
    toggling [$pathname] with [/home] gives the single filter
    [{type: Event, key: $pathname, operator: Exact, value: /home}]. *)
Theorem toggle_no_match_appends (S : WebAnalyticsPropertyFilters) (k v : string) :
  existsb (matchesKey k) S = false ->
  (includes setOncePropertyNames k = false ->
     let f := {| type := Event; key := k; operator := Some Exact;
                 value := Some (VPrim (PStr v)) |} in
     togglePropertyFilter S k v = S ++ [f] /\ oldValueOf f = [PStr v])
  /\ (includes setOncePropertyNames k = true ->
        togglePropertyFilter S k v
        = S ++ [ {| type := HogQL; key := hogqlForSetOnceProperty k v;
                    operator := None; value := None |} ]).
Proof.
  intros H. rewrite (toggle_unmatched k v S H). unfold newFilter.
  split; intros Hk; rewrite Hk; [split|]; reflexivity.
Qed.

Lemma toggle_no_match_appends_witness :
  existsb (matchesKey "$pathname") initialWebAnalyticsFilter = false
  /\ includes setOncePropertyNames "$pathname" = false
  /\ togglePropertyFilter initialWebAnalyticsFilter "$pathname" "/home"
     = [ {| type := Event; key := "$pathname"; operator := Some Exact;
            value := Some (VPrim (PStr "/home")) |} ].
Proof.
  split; [reflexivity|]. split; [reflexivity|].
  apply (toggle_no_match_appends initialWebAnalyticsFilter "$pathname" "/home");
    reflexivity.
Defined.

(** C3, as stated, fails: the appended event filter holds the string, not
    a one-element array. *)
Lemma toggle_appends_scalar_not_array :
  togglePropertyFilter initialWebAnalyticsFilter "$pathname" "/home"
  <> [ {| type := Event; key := "$pathname"; operator := Some Exact;
          value := Some (VArr [PStr "/home"]) |} ].
Proof.
  cbv. discriminate.
Qed.

(** C6. For a key [k] outside the set-once names that no filter of the
    list carries, and two distinct values, toggling [k] with the first and
    then with the second leaves exactly one filter for [k]: an [Event]
    filter with operator [Exact] whose values are the two toggled ones. *)
Theorem multi_value_union (S : WebAnalyticsPropertyFilters) (k v1 v2 : string) :
  includes setOncePropertyNames k = false ->
  existsb (keyIs k) S = false ->
  v1 <> v2 ->
  let f := {| type := Event; key := k; operator := Some Exact;
              value := Some (VArr [PStr v1; PStr v2]) |} in
  togglePropertyFilter (togglePropertyFilter S k v1) k v2 = S ++ [f]
  /\ filter (keyIs k) (togglePropertyFilter (togglePropertyFilter S k v1) k v2)
     = [f].
Proof.
  intros Hk Hno Hv f.
  pose proof (no_key_no_match k S Hk Hno) as Hm.
  assert (E : togglePropertyFilter (togglePropertyFilter S k v1) k v2 = S ++ [f]).
  { rewrite (toggle_unmatched k v1 S Hm).
    rewrite toggle_matched by apply existsb_matches_app_new.
    rewrite map_app, filter_isNotNil_app, (toggle_map_unmatched k v2 S Hm).
    f_equal. cbn [map filter_isNotNil]. unfold newFilter, toggleOne. rewrite Hk.
    cbn [type key operator value PropertyFilterType_eqb isExact negb orb].
    rewrite String.eqb_refl. cbn.
    apply String.eqb_neq in Hv. rewrite String.eqb_sym, Hv. reflexivity. }
  split; [exact E|]. rewrite E, filter_app, (filter_none _ _ Hno).
  cbn. unfold keyIs. cbn. now rewrite String.eqb_refl.
Qed.

Lemma multi_value_union_witness :
  let S := [ {| type := Event; key := "$os"; operator := Some Exact;
                value := Some (VPrim (PStr "Linux")) |} ] in
  let f := {| type := Event; key := "$browser"; operator := Some Exact;
              value := Some (VArr [PStr "Chrome"; PStr "Safari"]) |} in
  togglePropertyFilter (togglePropertyFilter S "$browser" "Chrome")
    "$browser" "Safari" = S ++ [f]
  /\ filter (keyIs "$browser")
       (togglePropertyFilter (togglePropertyFilter S "$browser" "Chrome")
          "$browser" "Safari") = [f].
Proof.
  intros S f.
  apply (multi_value_union S "$browser" "Chrome" "Safari");
    [reflexivity | reflexivity | discriminate].
Defined.

(** Whatever else the list holds, an event filter for [k] whose operator
    is not [Exact] is not a match and is still there after the toggle. *)
Lemma non_exact_filter_kept
    (S : WebAnalyticsPropertyFilters) (k v : string) (f : PropertyFilter) :
  includes setOncePropertyNames k = false ->
  In f S ->
  operator f <> Some Exact ->
  matchesKey k f = false /\ In f (togglePropertyFilter S k v).
Proof.
  intros Hk Hin Hop.
  assert (Hmf : matchesKey k f = false).
  { rewrite (matchesKey_event _ _ Hk). unfold isExactEventFor.
    rewrite (isExact_false _ Hop). apply andb_false_r. }
  split; [exact Hmf|]. unfold togglePropertyFilter.
  destruct (existsb (matchesKey k) S); [|apply in_or_app; now left].
  induction S as [|g S IH]; [contradiction|]. cbn [map filter_isNotNil].
  destruct Hin as [-> | Hin].
  - rewrite (toggleOne_unmatched k v f Hmf). now left.
  - destruct (toggleOne k v g); [right|]; now apply IH.
Qed.

(** C10 (amended). For a key [k] outside the set-once names, when the
    list contains an [Event] filter with key [k] whose operator is not
    [Exact] and no [Exact] event filter for [k], the toggle does not take
    that filter for a match: the list is kept as it is and a new [Exact]
    event filter for [k] is appended, so that the list then holds one more
    entry for [k] than before, two when that filter was its only entry
    for [k]. *)
Theorem non_exact_filter_not_matched
    (S : WebAnalyticsPropertyFilters) (k v : string) (f : PropertyFilter) :
  includes setOncePropertyNames k = false ->
  In f S ->
  type f = Event ->
  key f = k ->
  operator f <> Some Exact ->
  existsb (isExactEventFor k) S = false ->
  let g := {| type := Event; key := k; operator := Some Exact;
              value := Some (VPrim (PStr v)) |} in
  matchesKey k f = false
  /\ togglePropertyFilter S k v = S ++ [g]
  /\ In f (filter (keyIs k) (togglePropertyFilter S k v))
  /\ filter (keyIs k) (togglePropertyFilter S k v) = filter (keyIs k) S ++ [g]
  /\ (filter (keyIs k) S = [f] ->
      filter (keyIs k) (togglePropertyFilter S k v) = [f; g]).
Proof.
  intros Hk Hin Hty Hkey Hop Hno g.
  assert (Hmf : matchesKey k f = false).
  { rewrite (matchesKey_event _ _ Hk). unfold isExactEventFor.
    rewrite (isExact_false _ Hop). apply andb_false_r. }
  assert (Hm : existsb (matchesKey k) S = false)
    by now rewrite existsb_matchesKey_event.
  assert (E : togglePropertyFilter S k v = S ++ [g]).
  { rewrite (toggle_unmatched k v S Hm). unfold newFilter. now rewrite Hk. }
  assert (F : filter (keyIs k) (togglePropertyFilter S k v)
              = filter (keyIs k) S ++ [g]).
  { rewrite E, filter_app. cbn. unfold keyIs at 2. cbn.
    now rewrite String.eqb_refl. }
  split; [exact Hmf|]. split; [exact E|]. split; [|split; [exact F|]].
  - rewrite F. apply in_or_app. left. apply filter_In. split; [exact Hin|].
    unfold keyIs. rewrite Hkey. apply String.eqb_refl.
  - intros H1. now rewrite F, H1.
Qed.

Lemma non_exact_filter_not_matched_witness :
  let f := {| type := Event; key := "$browser"; operator := Some IContains;
              value := Some (VPrim (PStr "Chro")) |} in
  let S := [ {| type := Event; key := "$os"; operator := Some Exact;
                value := Some (VPrim (PStr "Linux")) |}; f ] in
  let g := {| type := Event; key := "$browser"; operator := Some Exact;
              value := Some (VPrim (PStr "Chrome")) |} in
  matchesKey "$browser" f = false
  /\ togglePropertyFilter S "$browser" "Chrome" = S ++ [g]
  /\ In f (filter (keyIs "$browser") (togglePropertyFilter S "$browser" "Chrome"))
  /\ filter (keyIs "$browser") (togglePropertyFilter S "$browser" "Chrome")
     = filter (keyIs "$browser") S ++ [g]
  /\ (filter (keyIs "$browser") S = [f] ->
      filter (keyIs "$browser") (togglePropertyFilter S "$browser" "Chrome")
      = [f; g]).
Proof.
  intros f S g.
  apply (non_exact_filter_not_matched S "$browser" "Chrome" f).
  - reflexivity.
  - right. left. reflexivity.
  - reflexivity.
  - reflexivity.
  - discriminate.
  - reflexivity.
Defined.

(** C10, as stated, fails when the list also holds an [Exact] event filter
    for the key: that one is the match, so nothing is appended. With the
    values [Chrome] it is even removed, and the list is left with the one
    non-[Exact] entry for the key; with another value it is rewritten and
    the list keeps its length. *)
Lemma non_exact_filter_beside_exact :
  let f := {| type := Event; key := "$browser"; operator := Some IContains;
              value := Some (VPrim (PStr "Chro")) |} in
  let e := {| type := Event; key := "$browser"; operator := Some Exact;
              value := Some (VArr [PStr "Chrome"]) |} in
  togglePropertyFilter [f; e] "$browser" "Chrome" = [f]
  /\ filter (keyIs "$browser") (togglePropertyFilter [f; e] "$browser" "Chrome")
     = [f]
  /\ togglePropertyFilter [f; e] "$browser" "Safari"
     = [ f; {| type := Event; key := "$browser"; operator := Some Exact;
               value := Some (VArr [PStr "Chrome"; PStr "Safari"]) |} ]
  /\ togglePropertyFilter [f; e] "$browser" "Safari"
     <> [ f; e; {| type := Event; key := "$browser"; operator := Some Exact;
                   value := Some (VPrim (PStr "Safari")) |} ].
Proof.
  cbv zeta. repeat split. cbv. discriminate.
Qed.

(** C7 (amended). For a key [k] outside the set-once names, if the list
    contains an [Exact] event filter for [k] with two or more values, one
    of them [v1], then toggling [k] with [v1] puts in its place the same
    filter with the value list [v1] alone (kept, not removed), and every
    filter that is not itself an [Exact] event filter for [k] stays as it
    was, in the same relative order; when the filter is the only [Exact]
    event filter for [k], the rest of the list is unchanged. *)
Theorem collapse_to_single
    (pre post : WebAnalyticsPropertyFilters) (f : PropertyFilter) (k v1 : string) :
  includes setOncePropertyNames k = false ->
  isExactEventFor k f = true ->
  In (PStr v1) (oldValueOf f) ->
  1 < length (oldValueOf f) ->
  exists pre' post',
    togglePropertyFilter (pre ++ f :: post) k v1
    = pre' ++ {| type := Event; key := k; operator := Some Exact;
                 value := Some (VArr [PStr v1]) |} :: post'
    /\ filter (fun g => negb (isExactEventFor k g)) pre'
       = filter (fun g => negb (isExactEventFor k g)) pre
    /\ filter (fun g => negb (isExactEventFor k g)) post'
       = filter (fun g => negb (isExactEventFor k g)) post
    /\ (existsb (isExactEventFor k) (pre ++ post) = false ->
        pre' = pre /\ post' = post).
Proof.
  intros Hk Hf Hin Hlen.
  exists (filter_isNotNil (map (toggleOne k v1) pre)),
         (filter_isNotNil (map (toggleOne k v1) post)).
  split; [|split; [|split]].
  - rewrite toggle_matched.
    + rewrite map_app, filter_isNotNil_app. f_equal.
      cbn [map filter_isNotNil].
      assert (E : toggleOne k v1 f
                  = Some {| type := Event; key := k; operator := Some Exact;
                            value := Some (VArr [PStr v1]) |}).
      { unfold toggleOne. rewrite Hk. unfold isExactEventFor in Hf.
        apply andb_true_iff in Hf as [Hf Hop].
        apply andb_true_iff in Hf as [Hty Hkey].
        rewrite Hty, Hkey, Hop. cbn [negb orb].
        rewrite (includes_Prim _ _ Hin).
        apply Nat.ltb_lt in Hlen. now rewrite Hlen. }
      now rewrite E.
    + rewrite existsb_app. cbn [existsb].
      rewrite (matchesKey_event _ _ Hk), Hf. now rewrite orb_true_r.
  - now apply toggle_map_keeps_others.
  - now apply toggle_map_keeps_others.
  - intros Hno. rewrite existsb_app in Hno.
    apply orb_false_iff in Hno as [Hpre Hpost].
    split; apply toggle_map_unmatched; now rewrite existsb_matchesKey_event.
Qed.

Lemma collapse_to_single_witness :
  let pre := [ {| type := Event; key := "$os"; operator := Some Exact;
                  value := Some (VPrim (PStr "Linux")) |} ] in
  let f := {| type := Event; key := "$browser"; operator := Some Exact;
              value := Some (VArr [PStr "Chrome"; PStr "Safari"]) |} in
  let post := [ {| type := Event; key := "$browser"; operator := Some IsNot;
                   value := Some (VPrim (PStr "Edge")) |} ] in
  exists pre' post',
    togglePropertyFilter (pre ++ f :: post) "$browser" "Chrome"
    = pre' ++ {| type := Event; key := "$browser"; operator := Some Exact;
                 value := Some (VArr [PStr "Chrome"]) |} :: post'
    /\ filter (fun g => negb (isExactEventFor "$browser" g)) pre'
       = filter (fun g => negb (isExactEventFor "$browser" g)) pre
    /\ filter (fun g => negb (isExactEventFor "$browser" g)) post'
       = filter (fun g => negb (isExactEventFor "$browser" g)) post
    /\ (existsb (isExactEventFor "$browser") (pre ++ post) = false ->
        pre' = pre /\ post' = post).
Proof.
  intros pre f post.
  apply (collapse_to_single pre post f "$browser" "Chrome").
  - reflexivity.
  - reflexivity.
  - simpl. left. reflexivity.
  - simpl. lia.
Defined.

(** C7, as stated, fails in two ways. For a set-once key the [map] only
    looks at [HogQL] filters, so an [Exact] event filter for that key with
    values [/a] and [/b] is matched by [some] and then returned as it is.
    And a second [Exact] event filter for the same key is rewritten along
    with the first, so not every other filter is left unchanged. *)
Lemma collapse_to_single_fails :
  let f := {| type := Event; key := "$initial_pathname"; operator := Some Exact;
              value := Some (VArr [PStr "/a"; PStr "/b"]) |} in
  let g1 := {| type := Event; key := "$browser"; operator := Some Exact;
               value := Some (VArr [PStr "Chrome"; PStr "Safari"]) |} in
  let g2 := {| type := Event; key := "$browser"; operator := Some Exact;
               value := Some (VArr [PStr "Safari"]) |} in
  (isExactEventFor "$initial_pathname" f = true
   /\ oldValueOf f = [PStr "/a"; PStr "/b"]
   /\ togglePropertyFilter [f] "$initial_pathname" "/a" = [f]
   /\ togglePropertyFilter [f] "$initial_pathname" "/a"
      <> [ {| type := Event; key := "$initial_pathname"; operator := Some Exact;
              value := Some (VArr [PStr "/a"]) |} ])
  /\ (togglePropertyFilter [g1; g2] "$browser" "Chrome"
      = [ {| type := Event; key := "$browser"; operator := Some Exact;
             value := Some (VArr [PStr "Chrome"]) |};
          {| type := Event; key := "$browser"; operator := Some Exact;
             value := Some (VArr [PStr "Safari"; PStr "Chrome"]) |} ]
      /\ togglePropertyFilter [g1; g2] "$browser" "Chrome"
         <> [ {| type := Event; key := "$browser"; operator := Some Exact;
                 value := Some (VArr [PStr "Chrome"]) |}; g2 ]).
Proof.
  cbv zeta. repeat split; try reflexivity; cbv; discriminate.
Qed.

(** ** The set-once path *)

Lemma setOnce_cases (k : string) :
  includes setOncePropertyNames k = true ->
  k = "$initial_pathname" \/ k = "$initial_referrer"
  \/ k = "$initial_utm_source" \/ k = "$initial_utm_campaign".
Proof.
  unfold includes, setOncePropertyNames. cbn [existsb]. intros H.
  repeat (apply orb_true_iff in H as [H | H];
          [apply String.eqb_eq in H; subst; auto 6 |]).
  discriminate.
Qed.

(** Toggling the value a set-once filter was created with removes it. *)
Lemma set_once_toggle_same_removes
    (pre post : WebAnalyticsPropertyFilters) (k v : string) :
  existsb (matchesKey k) (pre ++ post) = false ->
  togglePropertyFilter (pre ++ newFilter k v :: post) k v = pre ++ post.
Proof.
  intros H. rewrite existsb_app in H. apply orb_false_iff in H as [Hpre Hpost].
  rewrite toggle_matched.
  - rewrite map_app, filter_isNotNil_app. cbn [map filter_isNotNil].
    rewrite toggleOne_newFilter_same.
    now rewrite !toggle_map_unmatched.
  - rewrite existsb_app. cbn [existsb].
    now rewrite newFilter_matches, orb_true_r.
Qed.

(** Toggling another value rewrites the filter into an object whose [key]
    is the property name and whose [value] is the expression. *)
Lemma set_once_toggle_other_rewrites
    (pre post : WebAnalyticsPropertyFilters) (k v1 v2 : string) :
  includes setOncePropertyNames k = true ->
  existsb (matchesKey k) (pre ++ post) = false ->
  v1 <> v2 ->
  togglePropertyFilter (pre ++ newFilter k v1 :: post) k v2
  = pre ++ {| type := HogQL; key := k; operator := None;
              value := Some (VPrim (PStr (hogqlForSetOnceProperty k v2))) |}
        :: post.
Proof.
  intros Hk H Hv. rewrite existsb_app in H.
  apply orb_false_iff in H as [Hpre Hpost].
  rewrite toggle_matched.
  - rewrite map_app, filter_isNotNil_app. cbn [map filter_isNotNil].
    rewrite !toggle_map_unmatched by assumption. f_equal.
    unfold toggleOne, newFilter, isHogqlForSetOnceProperty. rewrite Hk.
    cbn [type key operator value PropertyFilterType_eqb negb andb].
    rewrite hogql_startsWith. cbn [negb].
    destruct (String.eqb_spec (hogqlForSetOnceProperty k v1)
                (hogqlForSetOnceProperty k v2)) as [E | _]; [|reflexivity].
    apply hogql_inj in E. contradiction.
  - rewrite existsb_app. cbn [existsb].
    now rewrite newFilter_matches, orb_true_r.
Qed.

(** The rewritten object is not what a fresh toggle appends, and the
    matcher no longer recognises it. *)
Lemma set_once_rewritten_not_matched (k e : string) :
  includes setOncePropertyNames k = true ->
  matchesKey k {| type := HogQL; key := k; operator := None;
                  value := Some (VPrim (PStr e)) |} = false.
Proof.
  intros Hk. apply setOnce_cases in Hk as [-> | [-> | [-> | ->]]]; reflexivity.
Qed.

(** Four toggles of one set-once key, the values changing each time, end
    with two rewritten entries under the same [key]. *)
Lemma set_once_four_toggles (k v1 v2 v3 v4 : string) :
  includes setOncePropertyNames k = true ->
  v1 <> v2 -> v3 <> v4 ->
  toggleAll initialWebAnalyticsFilter [(k, v1); (k, v2); (k, v3); (k, v4)]
  = [ {| type := HogQL; key := k; operator := None;
         value := Some (VPrim (PStr (hogqlForSetOnceProperty k v2))) |};
      {| type := HogQL; key := k; operator := None;
         value := Some (VPrim (PStr (hogqlForSetOnceProperty k v4))) |} ].
Proof.
  intros Hk H12 H34.
  unfold toggleAll, initialWebAnalyticsFilter. cbn [fold_left fst snd].
  rewrite (toggle_unmatched k v1 []) by reflexivity.
  rewrite (set_once_toggle_other_rewrites [] [] k v1 v2 Hk eq_refl H12).
  cbn [app].
  assert (Hr : forall e, existsb (matchesKey k)
                 [ {| type := HogQL; key := k; operator := None;
                      value := Some (VPrim (PStr e)) |} ] = false).
  { intros e. cbn [existsb]. now rewrite set_once_rewritten_not_matched. }
  rewrite (toggle_unmatched k v3 [_] (Hr _)).
  apply (set_once_toggle_other_rewrites [_] [] k v3 v4 Hk); [|exact H34].
  rewrite app_nil_r. apply Hr.
Qed.

(** C4. On the list holding the set-once filter that toggling
    [$initial_pathname] with [/a] appends, toggling [$initial_pathname]
    with [/b] does not give the filter a fresh toggle with [/b] appends:
    the entry comes out with the property name as its [key] and the new
    expression as its [value]. *)
Theorem set_once_replace_shape :
  let old := {| type := HogQL;
                key := "properties.$set_once.$initial_pathname = '/a'";
                operator := None; value := None |} in
  old = newFilter "$initial_pathname" "/a"
  /\ togglePropertyFilter [old] "$initial_pathname" "/a" = []
  /\ togglePropertyFilter [old] "$initial_pathname" "/b"
     = [ {| type := HogQL; key := "$initial_pathname"; operator := None;
            value := Some (VPrim
              (PStr "properties.$set_once.$initial_pathname = '/b'")) |} ]
  /\ togglePropertyFilter [old] "$initial_pathname" "/b"
     <> togglePropertyFilter [] "$initial_pathname" "/b".
Proof.
  cbv zeta. repeat split; try reflexivity. cbv. discriminate.
Qed.

(** C1. From the empty list, four toggles of [$initial_pathname] with the
    values [/a], [/b], [/c], [/d] leave two entries whose [key] is
    [$initial_pathname]: the list does not keep one entry per key. *)
Theorem set_once_keys_duplicated :
  toggleAll initialWebAnalyticsFilter
    [ ("$initial_pathname", "/a"); ("$initial_pathname", "/b");
      ("$initial_pathname", "/c"); ("$initial_pathname", "/d") ]
  = [ {| type := HogQL; key := "$initial_pathname"; operator := None;
         value := Some (VPrim
           (PStr "properties.$set_once.$initial_pathname = '/b'")) |};
      {| type := HogQL; key := "$initial_pathname"; operator := None;
         value := Some (VPrim
           (PStr "properties.$set_once.$initial_pathname = '/d'")) |} ]
  /\ ~ NoDup (map key
         (toggleAll initialWebAnalyticsFilter
            [ ("$initial_pathname", "/a"); ("$initial_pathname", "/b");
              ("$initial_pathname", "/c"); ("$initial_pathname", "/d") ])).
Proof.
  split; [reflexivity|].
  intros H. cbv in H. inversion H as [|x l Hnin _]; subst.
  apply Hnin. left. reflexivity.
Qed.

(** ** Key uniqueness on the event path

    Toggles of keys outside the set-once names do keep one entry per key;
    the duplicates above come from the set-once path alone. *)

Lemma NoDup_snoc {A : Type} (x : A) (l : list A) :
  NoDup l -> ~ In x l -> NoDup (l ++ [x]).
Proof.
  induction 1 as [|y l Hy Hl IH]; simpl; intros Hx.
  - constructor; [intros [] | constructor].
  - constructor.
    + rewrite in_app_iff. intros [H | [H | []]]; [now apply Hy | subst; tauto].
    + apply IH. tauto.
Qed.

Lemma toggleOne_event_key (k v : string) (f f' : PropertyFilter) :
  includes setOncePropertyNames k = false ->
  isExactEventFor (key f) f = true ->
  toggleOne k v f = Some f' ->
  key f' = key f /\ isExactEventFor (key f') f' = true.
Proof.
  intros Hk Hf. unfold toggleOne. rewrite Hk.
  destruct (String.eqb_spec (key f) k) as [E | _]; cbn [negb orb].
  - assert (Hnew : forall xs f1,
              Some {| type := Event; key := k; operator := Some Exact;
                      value := Some (VArr xs) |} = Some f1 ->
              key f1 = key f /\ isExactEventFor (key f1) f1 = true).
    { intros xs f1 H. injection H as <-. cbn. split; [now symmetry|].
      unfold isExactEventFor. cbn. now rewrite String.eqb_refl. }
    destruct (_ || _); [intros H; injection H as <-; now split|].
    destruct (existsb _ _); [destruct (_ <? _)%nat; [|discriminate]|];
      apply Hnew.
  - intros H; injection H as <-; now split.
Qed.

Lemma toggle_map_keys (k v : string) (fs : WebAnalyticsPropertyFilters) (x : string) :
  includes setOncePropertyNames k = false ->
  Forall (fun f => isExactEventFor (key f) f = true) fs ->
  In x (map key (filter_isNotNil (map (toggleOne k v) fs))) ->
  In x (map key fs).
Proof.
  intros Hk. induction 1 as [|f fs Hf Hfs IH]; cbn [map filter_isNotNil];
    [tauto|].
  destruct (toggleOne k v f) as [f'|] eqn:E; cbn [filter_isNotNil map In].
  - destruct (toggleOne_event_key k v f f' Hk Hf E) as [-> _]. tauto.
  - tauto.
Qed.

Lemma toggle_event_preserves (k v : string) (fs : WebAnalyticsPropertyFilters) :
  includes setOncePropertyNames k = false ->
  eventStore fs -> eventStore (togglePropertyFilter fs k v).
Proof.
  intros Hk [Hnd Hall]. unfold togglePropertyFilter.
  destruct (existsb (matchesKey k) fs) eqn:Hm.
  - clear Hm. induction fs as [|f fs IH]; [split; constructor|].
    inversion Hnd as [|? ? Hnin Hnd']; subst.
    inversion Hall as [|? ? Hf Hall']; subst.
    destruct (IH Hnd' Hall') as [IH1 IH2]. cbn [map filter_isNotNil].
    destruct (toggleOne k v f) as [f'|] eqn:E; cbn [filter_isNotNil];
      [|now split].
    destruct (toggleOne_event_key k v f f' Hk Hf E) as [Ek Ef].
    split; [|now constructor]. cbn [map]. constructor; [|exact IH1].
    rewrite Ek. intros Hin. apply Hnin.
    now apply (toggle_map_keys k v fs).
  - split.
    + rewrite map_app. cbn [map]. apply NoDup_snoc; [exact Hnd|].
      unfold newFilter. rewrite Hk. cbn [key].
      intros Hin. apply in_map_iff in Hin as (f & Ef & Hin).
      rewrite Forall_forall in Hall. specialize (Hall f Hin).
      rewrite Ef, <- (matchesKey_event _ _ Hk) in Hall.
      assert (existsb (matchesKey k) fs = true)
        by (apply existsb_exists; now exists f).
      congruence.
    + apply Forall_app. split; [exact Hall|]. constructor; [|constructor].
      unfold newFilter, isExactEventFor. rewrite Hk. cbn.
      now rewrite String.eqb_refl.
Qed.

(** From the empty list, toggles of keys outside the set-once names never
    leave two entries with the same key. *)
Lemma event_keys_unique (ops : list (string * string)) :
  Forall (fun kv => includes setOncePropertyNames (fst kv) = false) ops ->
  NoDup (map key (toggleAll initialWebAnalyticsFilter ops)).
Proof.
  intros Hops.
  enough (H : forall fs, eventStore fs -> eventStore (toggleAll fs ops)).
  { apply H. split; constructor. }
  induction Hops as [|[k v] ops Hk _ IH]; intros fs Hfs; [exact Hfs|].
  cbn [toggleAll fold_left fst snd]. apply IH.
  now apply toggle_event_preserves.
Qed.

(** ** The derived tiles *)

(** The flag table of the eleven queries, tile by tile. *)
Lemma tiles_filterTestAccounts_table
    (fs : WebAnalyticsPropertyFilters) (p d s : string) :
  map (fun t => map (fun q => filterTestAccounts (sourceOf q)) (tileQueries t))
    (tiles fs p d s)
  = [ [None]; [None; None]; [None; None; None]; [None; None; None];
      [Some true]; [Some true] ].
Proof. reflexivity. Qed.




(** C8 (amended). Every query of every derived tile carries the current
    filter list as its [properties]; the [filterTestAccounts] flag is set
    (to true) on the two trends queries, and the overview and
    breakdown-table queries have no such field. *)
Theorem tile_queries_carry_filters
    (fs : WebAnalyticsPropertyFilters) (p d s : string)
    (t : WebDashboardTile) (q : QuerySchema) :
  In t (tiles fs p d s) ->
  In q (tileQueries t) ->
  properties (sourceOf q) = fs
  /\ filterTestAccounts (sourceOf q)
     = if isTrendsQuery (sourceOf q) then Some true else None.
Proof.
  intros Ht Hq. unfold tiles in Ht. cbn [In] in Ht.
  repeat (destruct Ht as [<- | Ht]; [cbn in Hq; each_query |]).
  contradiction.
Qed.

Lemma tile_queries_carry_filters_witness :
  let fs := [ {| type := Event; key := "$browser"; operator := Some Exact;
                 value := Some (VPrim (PStr "Chrome")) |} ] in
  let q := DataTableNode true (WebStatsTableQuery fs InitialPage) in
  properties (sourceOf q) = fs
  /\ filterTestAccounts (sourceOf q)
     = if isTrendsQuery (sourceOf q) then Some true else None.
Proof.
  intros fs q.
  apply (tile_queries_carry_filters fs PathTab.INITIAL_PATH DeviceTab.OS
           SourceTab.UTM_SOURCE
           (TabsTile {| colSpan := Some 6; rowSpan := None |}
              PathTab.INITIAL_PATH setPathTab
              [ statsTab PathTab.PATH "Top Paths" "Path" fs Page;
                statsTab PathTab.INITIAL_PATH "Top Entry Paths" "Entry Path"
                  fs InitialPage ])
           q).
  - simpl. right. left. reflexivity.
  - simpl. right. left. reflexivity.
Defined.

(** C8, as stated, fails: the overview query of the first tile (and each
    breakdown-table query) has no [filterTestAccounts] field. *)
Lemma overview_query_without_flag :
  let q := DataTableNode true (WebOverviewStatsQuery initialWebAnalyticsFilter) in
  let t := QueryTile {| colSpan := Some 12; rowSpan := None |} None q in
  nth_error (tiles initialWebAnalyticsFilter PathTab.PATH DeviceTab.BROWSER
               SourceTab.REFERRING_DOMAIN) 0 = Some t
  /\ tileQueries t = [q]
  /\ filterTestAccounts (sourceOf q) = None
  /\ filterTestAccounts (sourceOf q) <> Some true.
Proof.
  cbv zeta. repeat split. discriminate.
Qed.

(** ** The breakdown cell *)

(** C9. The switch from breakdown to property name never reaches its
    error branch on a member of the enumeration and agrees with the table
    (Page to [$pathname], InitialPage to [$initial_pathname],
    InitialReferringDomain to [$initial_referrer], InitialUTMSource to
    [$initial_utm_source], InitialUTMCampaign to [$initial_utm_campaign],
    Browser to [$browser], OS to [$os], DeviceType to [$device_type]);
    the cell rendered for a string value is a link whose click dispatches
    the toggle of that property name with the clicked value, which the
    store reduces with [togglePropertyFilter]. *)
Theorem breakdown_property_name_total (b : WebStatsBreakdown) :
  exists propertyName : string,
    In (b, propertyName) breakdownPropertyTable
    /\ (forall n, In (b, n) breakdownPropertyTable -> n = propertyName)
    /\ propertyNameSwitch (Member b) = Markup propertyName
    /\ forall (full : bool) (ps : WebAnalyticsPropertyFilters) (v : string)
              (st : State),
         BreakdownValueCell (PStr v)
           (DataTableNode full (WebStatsTableQuery ps b))
         = Markup {| onClick := TogglePropertyFilter propertyName v;
                     text := v |}
         /\ webAnalyticsFilters (reduce st (TogglePropertyFilter propertyName v))
            = togglePropertyFilter (webAnalyticsFilters st) propertyName v.
Proof.
  destruct b; eexists; (split; [cbn; tauto|]);
    (split;
     [ intros n Hn; cbn in Hn;
       repeat (destruct Hn as [Hn | Hn]; [inversion Hn; try reflexivity |]);
       contradiction
     | split; [reflexivity | intros; split; reflexivity] ]).
Qed.

(** * Further properties of the reducer *)

Lemma Prim_eqb_eq (a b : Prim) : Prim_eqb a b = true -> a = b.
Proof.
  destruct a, b; simpl; intros H; try discriminate; try reflexivity.
  - apply String.eqb_eq in H. now subst.
  - apply Z.eqb_eq in H. now subst.
Qed.

Lemma not_includes_Prim (p : Prim) (xs : list Prim) :
  ~ In p xs -> existsb (Prim_eqb p) xs = false.
Proof.
  intros H. destruct (existsb (Prim_eqb p) xs) eqn:E; [|reflexivity].
  apply existsb_exists in E as (x & Hx & Hpx).
  apply Prim_eqb_eq in Hpx. now subst.
Qed.

Lemma filter_isNotNil_length {A : Type} (xs : list (option A)) :
  length (filter_isNotNil xs) <= length xs.
Proof.
  induction xs as [|[a|] xs IH]; simpl; lia.
Qed.

(** X1. A toggle never makes the list longer by more than one filter, and
    it makes it longer exactly when no filter matched the key. *)
Theorem toggle_length (fs : WebAnalyticsPropertyFilters) (k v : string) :
  length (togglePropertyFilter fs k v) <= S (length fs)
  /\ (length (togglePropertyFilter fs k v) = S (length fs)
      <-> existsb (matchesKey k) fs = false).
Proof.
  unfold togglePropertyFilter.
  destruct (existsb (matchesKey k) fs).
  - pose proof (filter_isNotNil_length (map (toggleOne k v) fs)) as H.
    rewrite length_map in H. split; [lia|]. split; [lia | discriminate].
  - rewrite length_app. cbn [length]. split; [lia|]. split; [reflexivity | lia].
Qed.

(** X2. Whatever the key, a filter that the key does not match is still in
    the list after the toggle. *)
Theorem toggle_keeps_unmatched
    (fs : WebAnalyticsPropertyFilters) (k v : string) (f : PropertyFilter) :
  In f fs ->
  matchesKey k f = false ->
  In f (togglePropertyFilter fs k v).
Proof.
  intros Hin Hf. unfold togglePropertyFilter.
  destruct (existsb (matchesKey k) fs); [|apply in_or_app; now left].
  induction fs as [|g fs IH]; [contradiction|]. cbn [map filter_isNotNil].
  destruct Hin as [-> | Hin].
  - rewrite (toggleOne_unmatched k v f Hf). now left.
  - destruct (toggleOne k v g); [right|]; now apply IH.
Qed.

Lemma toggle_keeps_unmatched_witness :
  let f := {| type := HogQL;
              key := "properties.$set_once.$initial_referrer = 'a.io'";
              operator := None; value := None |} in
  let g := {| type := Event; key := "$os"; operator := Some Exact;
              value := Some (VPrim (PStr "Linux")) |} in
  In f (togglePropertyFilter [f; g] "$os" "Linux").
Proof.
  intros f g. apply (toggle_keeps_unmatched [f; g] "$os" "Linux" f).
  - left. reflexivity.
  - reflexivity.
Defined.

(** X3. For a key outside the set-once names, the toggle leaves every
    filter that is not an [Exact] event filter for that key where it was:
    those filters are the same, in the same order, before and after. *)
Theorem toggle_event_frame (fs : WebAnalyticsPropertyFilters) (k v : string) :
  includes setOncePropertyNames k = false ->
  filter (fun g => negb (isExactEventFor k g)) (togglePropertyFilter fs k v)
  = filter (fun g => negb (isExactEventFor k g)) fs.
Proof.
  intros Hk. unfold togglePropertyFilter.
  destruct (existsb (matchesKey k) fs).
  - now apply toggle_map_keeps_others.
  - rewrite filter_app. cbn [filter].
    rewrite <- (matchesKey_event _ _ Hk), newFilter_matches. cbn [negb].
    apply app_nil_r.
Qed.

Lemma toggle_event_frame_witness :
  let fs := [ {| type := Event; key := "$os"; operator := Some Exact;
                 value := Some (VPrim (PStr "Linux")) |};
              {| type := Event; key := "$browser"; operator := Some Exact;
                 value := Some (VArr [PStr "Chrome"]) |};
              {| type := Event; key := "$browser"; operator := Some IsNot;
                 value := Some (VPrim (PStr "Edge")) |} ] in
  filter (fun g => negb (isExactEventFor "$browser" g))
    (togglePropertyFilter fs "$browser" "Chrome")
  = filter (fun g => negb (isExactEventFor "$browser" g)) fs.
Proof.
  intros fs. apply (toggle_event_frame fs "$browser" "Chrome"). reflexivity.
Defined.

Lemma toggleOne_set_once_event (k v : string) (f : PropertyFilter) :
  includes setOncePropertyNames k = true ->
  isEventFilter f = true -> toggleOne k v f = Some f.
Proof.
  intros Hk Hf. unfold toggleOne. rewrite Hk.
  unfold isEventFilter in Hf. destruct (type f); [reflexivity | discriminate].
Qed.

Lemma toggleOne_set_once_HogQL (k v : string) (f f' : PropertyFilter) :
  includes setOncePropertyNames k = true ->
  isEventFilter f = false ->
  toggleOne k v f = Some f' -> isEventFilter f' = false.
Proof.
  intros Hk Hf. unfold toggleOne. rewrite Hk.
  destruct (negb (PropertyFilterType_eqb (type f) HogQL));
    [intros H; injection H as <-; exact Hf|].
  destruct (negb (isHogqlForSetOnceProperty k f));
    [intros H; injection H as <-; exact Hf|].
  destruct (String.eqb _ _); [discriminate|].
  intros H; injection H as <-. reflexivity.
Qed.

(** X4. For a set-once key, the toggle never touches an event filter: the
    event filters of the list are the same, in the same order, before and
    after. *)
Theorem toggle_set_once_frame (fs : WebAnalyticsPropertyFilters) (k v : string) :
  includes setOncePropertyNames k = true ->
  filter isEventFilter (togglePropertyFilter fs k v) = filter isEventFilter fs.
Proof.
  intros Hk. unfold togglePropertyFilter.
  destruct (existsb (matchesKey k) fs).
  - induction fs as [|f fs IH]; [reflexivity|]. cbn [map filter_isNotNil filter].
    destruct (isEventFilter f) eqn:Ef.
    + rewrite (toggleOne_set_once_event k v f Hk Ef).
      cbn [filter_isNotNil filter]. now rewrite Ef, IH.
    + destruct (toggleOne k v f) as [f'|] eqn:E; cbn [filter_isNotNil filter];
        [|exact IH].
      now rewrite (toggleOne_set_once_HogQL k v f f' Hk Ef E).
  - rewrite filter_app. cbn [filter]. unfold newFilter. rewrite Hk.
    cbn. apply app_nil_r.
Qed.

Lemma toggle_set_once_frame_witness :
  let fs := [ {| type := Event; key := "$initial_referrer";
                 operator := Some Exact;
                 value := Some (VPrim (PStr "a.io")) |};
              {| type := HogQL;
                 key := "properties.$set_once.$initial_referrer = 'a.io'";
                 operator := None; value := None |};
              {| type := Event; key := "$os"; operator := Some Exact;
                 value := Some (VPrim (PStr "Linux")) |} ] in
  filter isEventFilter (togglePropertyFilter fs "$initial_referrer" "b.io")
  = filter isEventFilter fs.
Proof.
  intros fs. apply (toggle_set_once_frame fs "$initial_referrer" "b.io").
  reflexivity.
Defined.

(** ** One exact event filter under the toggle *)

Lemma toggleOne_exact (k v : string) (f : PropertyFilter) :
  includes setOncePropertyNames k = false ->
  isExactEventFor k f = true ->
  toggleOne k v f
  = if existsb (Prim_eqb (PStr v)) (oldValueOf f) then
      if (1 <? length (oldValueOf f))%nat then
        Some {| type := Event; key := k; operator := Some Exact;
                value := Some (VArr [PStr v]) |}
      else None
    else
      Some {| type := Event; key := k; operator := Some Exact;
              value := Some (VArr (oldValueOf f ++ [PStr v])) |}.
Proof.
  intros Hk Hf. unfold toggleOne. rewrite Hk. unfold isExactEventFor in Hf.
  apply andb_true_iff in Hf as [Hf Hop]. apply andb_true_iff in Hf as [Hty Hkey].
  now rewrite Hty, Hkey, Hop.
Qed.

Lemma toggle_event_at
    (pre post : WebAnalyticsPropertyFilters) (f : PropertyFilter) (k v : string) :
  includes setOncePropertyNames k = false ->
  isExactEventFor k f = true ->
  existsb (isExactEventFor k) (pre ++ post) = false ->
  togglePropertyFilter (pre ++ f :: post) k v
  = pre ++ match toggleOne k v f with
           | Some f' => f' :: post
           | None => post
           end.
Proof.
  intros Hk Hf Hno. rewrite existsb_app in Hno.
  apply orb_false_iff in Hno as [Hpre Hpost].
  rewrite <- (existsb_matchesKey_event k pre Hk) in Hpre.
  rewrite <- (existsb_matchesKey_event k post Hk) in Hpost.
  rewrite toggle_matched.
  - rewrite map_app, filter_isNotNil_app. cbn [map filter_isNotNil].
    rewrite (toggle_map_unmatched k v pre Hpre).
    destruct (toggleOne k v f); now rewrite (toggle_map_unmatched k v post Hpost).
  - rewrite existsb_app. cbn [existsb].
    now rewrite (matchesKey_event _ _ Hk), Hf, orb_true_r.
Qed.

(** X5. For a key outside the set-once names: when the list's one [Exact]
    event filter for the key holds the toggled value and nothing else
    (as a string or as a one-element array), the toggle removes that
    filter and leaves the rest of the list as it was. *)
Theorem toggle_off_single
    (pre post : WebAnalyticsPropertyFilters) (f : PropertyFilter) (k v : string) :
  includes setOncePropertyNames k = false ->
  isExactEventFor k f = true ->
  oldValueOf f = [PStr v] ->
  existsb (isExactEventFor k) (pre ++ post) = false ->
  togglePropertyFilter (pre ++ f :: post) k v = pre ++ post.
Proof.
  intros Hk Hf Hv Hno.
  rewrite (toggle_event_at pre post f k v Hk Hf Hno).
  rewrite (toggleOne_exact k v f Hk Hf), Hv. cbn.
  now rewrite String.eqb_refl.
Qed.

Lemma toggle_off_single_witness :
  let pre := [ {| type := Event; key := "$os"; operator := Some Exact;
                  value := Some (VPrim (PStr "Linux")) |} ] in
  let f := {| type := Event; key := "$browser"; operator := Some Exact;
              value := Some (VArr [PNil; PStr "Chrome"]) |} in
  let post := [ {| type := HogQL;
                   key := "properties.$set_once.$initial_referrer = 'a.io'";
                   operator := None; value := None |} ] in
  togglePropertyFilter (pre ++ f :: post) "$browser" "Chrome" = pre ++ post.
Proof.
  intros pre f post.
  apply (toggle_off_single pre post f "$browser" "Chrome"); reflexivity.
Defined.

(** X6. For a key outside the set-once names: when the list's one [Exact]
    event filter for the key does not hold the toggled value, the toggle
    rewrites it in place with the value added at the end of its values
    (nil values dropped), and leaves the rest of the list as it was; a
    filter without any value ends up with the toggled value alone. *)
Theorem toggle_adds_value
    (pre post : WebAnalyticsPropertyFilters) (f : PropertyFilter) (k v : string) :
  includes setOncePropertyNames k = false ->
  isExactEventFor k f = true ->
  ~ In (PStr v) (oldValueOf f) ->
  existsb (isExactEventFor k) (pre ++ post) = false ->
  togglePropertyFilter (pre ++ f :: post) k v
  = pre ++ {| type := Event; key := k; operator := Some Exact;
              value := Some (VArr (oldValueOf f ++ [PStr v])) |} :: post
  /\ (value f = None \/ value f = Some (VPrim PNil) ->
      togglePropertyFilter (pre ++ f :: post) k v
      = pre ++ {| type := Event; key := k; operator := Some Exact;
                  value := Some (VArr [PStr v]) |} :: post).
Proof.
  intros Hk Hf Hv Hno.
  rewrite (toggle_event_at pre post f k v Hk Hf Hno).
  rewrite (toggleOne_exact k v f Hk Hf), (not_includes_Prim _ _ Hv).
  split; [reflexivity|].
  unfold oldValueOf. intros [-> | ->]; reflexivity.
Qed.

Lemma toggle_adds_value_witness :
  let pre := [ {| type := Event; key := "$os"; operator := Some Exact;
                  value := Some (VPrim (PStr "Linux")) |} ] in
  let f := {| type := Event; key := "$browser"; operator := Some Exact;
              value := Some (VArr [PStr "Chrome"; PNum 7]) |} in
  togglePropertyFilter (pre ++ f :: []) "$browser" "Safari"
  = pre ++ {| type := Event; key := "$browser"; operator := Some Exact;
              value := Some (VArr [PStr "Chrome"; PNum 7; PStr "Safari"]) |}
        :: [].
Proof.
  intros pre f.
  apply (toggle_adds_value pre [] f "$browser" "Safari");
    [reflexivity | reflexivity | | reflexivity].
  simpl. intros [H | [H | []]]; discriminate.
Defined.

(** X7. For a set-once key: when some [Exact] event filter carries the key
    and no [HogQL] filter encodes it, the toggle changes nothing at all
    (the event filter counts as a match, and the rewrite only looks at
    [HogQL] filters). *)
Theorem set_once_toggle_noop
    (fs : WebAnalyticsPropertyFilters) (k v : string) :
  includes setOncePropertyNames k = true ->
  existsb (isExactEventFor k) fs = true ->
  existsb (fun f => PropertyFilterType_eqb (type f) HogQL
                    && isHogqlForSetOnceProperty k f) fs = false ->
  togglePropertyFilter fs k v = fs.
Proof.
  intros Hk He Hh. rewrite toggle_matched.
  - clear He. induction fs as [|f fs IH]; [reflexivity|].
    cbn [existsb] in Hh. apply orb_false_iff in Hh as [Hf Hfs].
    cbn [map filter_isNotNil].
    assert (E : toggleOne k v f = Some f).
    { unfold toggleOne. rewrite Hk.
      destruct (PropertyFilterType_eqb (type f) HogQL); [|reflexivity].
      cbn [andb] in Hf. now rewrite Hf. }
    rewrite E. cbn [filter_isNotNil]. now rewrite (IH Hfs).
  - apply existsb_exists in He as (f & Hin & Hf).
    apply existsb_exists. exists f. split; [exact Hin|].
    unfold matchesKey. unfold isExactEventFor in Hf. now rewrite Hf.
Qed.

Lemma set_once_toggle_noop_witness :
  let fs := [ {| type := Event; key := "$initial_utm_source";
                 operator := Some Exact;
                 value := Some (VArr [PStr "news"]) |} ] in
  togglePropertyFilter fs "$initial_utm_source" "news" = fs
  /\ togglePropertyFilter fs "$initial_utm_source" "ads" = fs.
Proof.
  intros fs.
  split; [apply (set_once_toggle_noop fs "$initial_utm_source" "news")
         | apply (set_once_toggle_noop fs "$initial_utm_source" "ads")];
    reflexivity.
Defined.

(** ** Keys do not interfere *)

Lemma startsWith_comparable (s p1 p2 : string) :
  startsWith s p1 = true -> startsWith s p2 = true ->
  startsWith p1 p2 = true \/ startsWith p2 p1 = true.
Proof.
  revert s p2. induction p1 as [|c p1 IH]; intros s p2 H1 H2.
  - right. now destruct p2.
  - destruct p2 as [|e p2]; [now left|].
    destruct s as [|d s]; [discriminate|]. cbn [startsWith] in *.
    apply andb_true_iff in H1 as [Hc H1]. apply andb_true_iff in H2 as [He H2].
    apply Ascii.eqb_eq in Hc. apply Ascii.eqb_eq in He. subst.
    rewrite Ascii.eqb_refl. cbn [andb].
    destruct (IH s p2 H1 H2) as [H | H]; [left | right]; exact H.
Qed.

Lemma setOnce_prefix_inj (k k' : string) :
  includes setOncePropertyNames k = true ->
  includes setOncePropertyNames k' = true ->
  startsWith ("properties.$set_once." ++ k ++ " = ")%string
    ("properties.$set_once." ++ k' ++ " = ")%string = true ->
  k = k'.
Proof.
  intros Hk Hk'.
  apply setOnce_cases in Hk as [-> | [-> | [-> | ->]]];
    apply setOnce_cases in Hk' as [-> | [-> | [-> | ->]]];
    cbn; intros H; try reflexivity; discriminate.
Qed.

Lemma matchesKey_functional_aux (k k' : string) (f : PropertyFilter) :
  matchesKey k f = true -> matchesKey k' f = true -> k = k'.
Proof.
  unfold matchesKey, isHogqlForSetOnceProperty.
  destruct (type f); cbn [PropertyFilterType_eqb andb orb].
  - rewrite !orb_false_r. intros H H'.
    apply andb_true_iff in H as [H _]. apply andb_true_iff in H' as [H' _].
    apply String.eqb_eq in H, H'. congruence.
  - intros H H'.
    apply andb_true_iff in H as [Hk H]. apply andb_true_iff in H' as [Hk' H'].
    destruct (startsWith_comparable _ _ _ H H') as [C | C].
    + now apply setOnce_prefix_inj.
    + symmetry. now apply setOnce_prefix_inj.
Qed.

(** X8. A filter is matched by at most one key: an event filter by its own
    key, a [HogQL] filter by the one set-once name whose expression prefix
    it starts with. *)
Theorem matchesKey_functional (k k' : string) (f : PropertyFilter) :
  matchesKey k f = true -> matchesKey k' f = true -> k = k'.
Proof.
  intros H H'. now apply (matchesKey_functional_aux k k' f).
Qed.

Lemma matchesKey_functional_witness :
  let f := {| type := HogQL;
              key := "properties.$set_once.$initial_utm_source = 'news'";
              operator := None; value := None |} in
  matchesKey "$initial_utm_source" f = true
  /\ "$initial_utm_source" = "$initial_utm_source".
Proof.
  intros f. split; [reflexivity|].
  apply (matchesKey_functional "$initial_utm_source" "$initial_utm_source" f);
    reflexivity.
Defined.

Lemma toggleOne_other_key (k k' v : string) (f f' : PropertyFilter) :
  matchesKey k' f = false ->
  toggleOne k v f = Some f' ->
  k <> k' ->
  matchesKey k' f' = false.
Proof.
  intros Hf E Hne. unfold toggleOne in E.
  assert (Hev : forall xs,
            matchesKey k' {| type := Event; key := k; operator := Some Exact;
                             value := Some (VArr xs) |} = false).
  { intros xs. unfold matchesKey. cbn.
    apply String.eqb_neq in Hne. now rewrite Hne. }
  destruct (includes setOncePropertyNames k) eqn:Hk.
  - destruct (negb (PropertyFilterType_eqb (type f) HogQL));
      [injection E as <-; exact Hf|].
    destruct (negb (isHogqlForSetOnceProperty k f));
      [injection E as <-; exact Hf|].
    destruct (String.eqb _ _); [discriminate|]. injection E as <-.
    unfold matchesKey, isHogqlForSetOnceProperty. cbn [type key PropertyFilterType_eqb andb orb].
    apply setOnce_cases in Hk as [-> | [-> | [-> | ->]]]; cbn;
      apply andb_false_r.
  - destruct (_ || _); [injection E as <-; exact Hf|].
    destruct (existsb _ _); [destruct (_ <? _)%nat; [|discriminate]|];
      injection E as <-; apply Hev.
Qed.

(** X9. Toggling one key leaves the filters of every other key as they
    were: for a different key, the filters it matches are the same, in the
    same order, before and after. *)
Theorem toggle_other_key_frame
    (fs : WebAnalyticsPropertyFilters) (k k' v : string) :
  k <> k' ->
  filter (matchesKey k') (togglePropertyFilter fs k v)
  = filter (matchesKey k') fs.
Proof.
  intros Hne. unfold togglePropertyFilter.
  destruct (existsb (matchesKey k) fs).
  - induction fs as [|f fs IH]; [reflexivity|]. cbn [map filter_isNotNil filter].
    destruct (matchesKey k' f) eqn:Ef.
    + assert (Hkf : matchesKey k f = false).
      { destruct (matchesKey k f) eqn:E; [|reflexivity].
        exfalso. apply Hne. exact (matchesKey_functional_aux k k' f E Ef). }
      rewrite (toggleOne_unmatched k v f Hkf). cbn [filter_isNotNil filter].
      now rewrite Ef, IH.
    + destruct (toggleOne k v f) as [f'|] eqn:E; cbn [filter_isNotNil filter];
        [|exact IH].
      now rewrite (toggleOne_other_key k k' v f f' Ef E Hne).
  - rewrite filter_app. cbn [filter].
    destruct (matchesKey k' (newFilter k v)) eqn:E; [|apply app_nil_r].
    exfalso. apply Hne.
    exact (matchesKey_functional_aux k k' _ (newFilter_matches k v) E).
Qed.

Lemma toggle_other_key_frame_witness :
  let fs := [ {| type := HogQL;
                 key := "properties.$set_once.$initial_utm_source = 'news'";
                 operator := None; value := None |};
              {| type := HogQL;
                 key := "properties.$set_once.$initial_utm_campaign = 'x'";
                 operator := None; value := None |} ] in
  filter (matchesKey "$initial_utm_campaign")
    (togglePropertyFilter fs "$initial_utm_source" "ads")
  = filter (matchesKey "$initial_utm_campaign") fs.
Proof.
  intros fs.
  apply (toggle_other_key_frame fs "$initial_utm_source"
           "$initial_utm_campaign" "ads").
  discriminate.
Defined.

(** X10. For a set-once key: on a list whose only match is the filter a
    toggle with [v1] appended, a toggle with [v2] removes that filter
    exactly when [v2] is [v1]; the expression built from the value tells
    any two values apart. *)
Theorem set_once_removed_iff_same_value
    (pre post : WebAnalyticsPropertyFilters) (k v1 v2 : string) :
  includes setOncePropertyNames k = true ->
  existsb (matchesKey k) (pre ++ post) = false ->
  (togglePropertyFilter (pre ++ newFilter k v1 :: post) k v2 = pre ++ post
   <-> v1 = v2).
Proof.
  intros Hk Hno. split.
  - intros H. destruct (String.eqb_spec v1 v2) as [E | Hne]; [exact E|].
    rewrite (set_once_toggle_other_rewrites pre post k v1 v2 Hk Hno Hne) in H.
    apply (f_equal (@length _)) in H. rewrite !length_app in H.
    cbn [length] in H. lia.
  - intros <-. now apply set_once_toggle_same_removes.
Qed.

Lemma set_once_removed_iff_same_value_witness :
  let pre := [ {| type := Event; key := "$os"; operator := Some Exact;
                  value := Some (VPrim (PStr "Linux")) |} ] in
  togglePropertyFilter (pre ++ newFilter "$initial_referrer" "it's" :: [])
    "$initial_referrer" "it's" = pre ++ []
  <-> "it's" = "it's".
Proof.
  intros pre.
  apply (set_once_removed_iff_same_value pre [] "$initial_referrer"
           "it's" "it's"); reflexivity.
Defined.

(** ** Invariants of the store *)

(** X11. Starting from the empty list, toggles of keys outside the
    set-once names never leave two filters with the same key. *)
Theorem event_toggles_keep_keys_unique (ops : list (string * string)) :
  Forall (fun kv => includes setOncePropertyNames (fst kv) = false) ops ->
  NoDup (map key (toggleAll initialWebAnalyticsFilter ops)).
Proof.
  intros Hops. now apply event_keys_unique.
Qed.

Lemma event_toggles_keep_keys_unique_witness :
  NoDup (map key
    (toggleAll initialWebAnalyticsFilter
       [ ("$browser", "Chrome"); ("$os", "Linux"); ("$browser", "Safari");
         ("$browser", "Chrome"); ("$pathname", "/"); ("$os", "Linux") ])).
Proof.
  apply (event_toggles_keep_keys_unique
           [ ("$browser", "Chrome"); ("$os", "Linux"); ("$browser", "Safari");
             ("$browser", "Chrome"); ("$pathname", "/"); ("$os", "Linux") ]).
  repeat constructor.
Defined.

Lemma toggleOne_values_ok (k v : string) (f f' : PropertyFilter) :
  eventValuesOk f -> toggleOne k v f = Some f' -> eventValuesOk f'.
Proof.
  intros Hf E. unfold toggleOne in E.
  destruct (includes setOncePropertyNames k).
  - destruct (negb (PropertyFilterType_eqb (type f) HogQL));
      [injection E as <-; exact Hf|].
    destruct (negb (isHogqlForSetOnceProperty k f));
      [injection E as <-; exact Hf|].
    destruct (String.eqb _ _); [discriminate|]. injection E as <-.
    intros H. discriminate H.
  - destruct (negb (String.eqb (key f) k)
              || negb (PropertyFilterType_eqb (type f) Event)
              || negb (isExact (operator f))) eqn:G;
      [injection E as <-; exact Hf|].
    apply orb_false_iff in G as [G _]. apply orb_false_iff in G as [_ G].
    assert (Hty : type f = Event) by (destruct (type f); [reflexivity | discriminate]).
    destruct (Hf Hty) as (_ & _ & Hnd).
    destruct (existsb (Prim_eqb (PStr v)) (oldValueOf f)) eqn:Hin.
    + destruct (_ <? _)%nat; [|discriminate]. injection E as <-.
      intros _. split; [reflexivity|]. cbn. split; [discriminate|].
      constructor; [intros [] | constructor].
    + injection E as <-. intros _. split; [reflexivity|].
      assert (Hold : oldValueOf
                {| type := Event; key := k; operator := Some Exact;
                   value := Some (VArr (oldValueOf f ++ [PStr v])) |}
              = oldValueOf f ++ [PStr v]).
      { unfold oldValueOf at 1. cbn [value]. rewrite filter_app. cbn.
        f_equal. unfold oldValueOf.
        set (xs := match value f with
                   | Some (VArr xs) => xs
                   | Some (VPrim p) => [p]
                   | None => [PNil]
                   end).
        induction xs as [|x xs IH]; [reflexivity|]. cbn [filter].
        destruct (isNotNil x) eqn:Ex; cbn [filter]; [rewrite Ex|]; now rewrite IH. }
      rewrite Hold. split.
      * destruct (oldValueOf f); discriminate.
      * apply NoDup_snoc; [exact Hnd|]. intros HIn.
        apply includes_Prim in HIn. congruence.
Qed.

Lemma toggle_values_ok (fs : WebAnalyticsPropertyFilters) (k v : string) :
  Forall eventValuesOk fs -> Forall eventValuesOk (togglePropertyFilter fs k v).
Proof.
  intros H. unfold togglePropertyFilter.
  destruct (existsb (matchesKey k) fs).
  - induction H as [|f fs Hf _ IH]; [constructor|]. cbn [map filter_isNotNil].
    destruct (toggleOne k v f) as [f'|] eqn:E; cbn [filter_isNotNil]; [|exact IH].
    constructor; [exact (toggleOne_values_ok k v f f' Hf E) | exact IH].
  - apply Forall_app. split; [exact H|]. constructor; [|constructor].
    unfold newFilter. destruct (includes setOncePropertyNames k).
    + intros E. discriminate E.
    + intros _. split; [reflexivity|]. cbn. split; [discriminate|].
      constructor; [intros [] | constructor].
Qed.

(** X12. Starting from the empty list, after any run of toggles (of any
    keys) every event filter in the list has the operator [Exact] and a
    list of values that is not empty and holds no value twice. *)
Theorem event_filters_well_formed
    (ops : list (string * string)) (f : PropertyFilter) :
  In f (toggleAll initialWebAnalyticsFilter ops) ->
  type f = Event ->
  operator f = Some Exact /\ oldValueOf f <> [] /\ NoDup (oldValueOf f).
Proof.
  enough (H : forall fs, Forall eventValuesOk fs ->
                         Forall eventValuesOk (toggleAll fs ops)).
  { intros Hin. specialize (H [] (Forall_nil _)).
    rewrite Forall_forall in H. exact (H f Hin). }
  induction ops as [|[k v] ops IH]; intros fs Hfs; [exact Hfs|].
  cbn [toggleAll fold_left fst snd]. apply IH. now apply toggle_values_ok.
Qed.

Lemma event_filters_well_formed_witness :
  let f := {| type := Event; key := "$browser"; operator := Some Exact;
              value := Some (VArr [PStr "Chrome"; PStr "Safari"]) |} in
  operator f = Some Exact /\ oldValueOf f <> [] /\ NoDup (oldValueOf f).
Proof.
  intros f.
  apply (event_filters_well_formed
           [ ("$initial_referrer", "a.io"); ("$browser", "Chrome");
             ("$initial_referrer", "b.io"); ("$browser", "Safari") ] f).
  - cbv. right. left. reflexivity.
  - reflexivity.
Defined.

(** * The dashboard *)

(** X13. A tab group is rendered as nothing exactly when its active id is
    the id of none of its tabs; when it is rendered, it shows the query and
    the title of a tab with the active id, keyed by that id. *)
Theorem renderTile_tabs
    (layout : Layout) (activeTabId : string) (setTabId : TabSetter)
    (tabs : list Tab) :
  (renderTile (TabsTile layout activeTabId setTabId tabs) = None
   <-> ~ In activeTabId (map id tabs))
  /\ forall view,
       renderTile (TabsTile layout activeTabId setTabId tabs) = Some view ->
       exists tab, In tab tabs /\ id tab = activeTabId
                   /\ shown_query view = query tab
                   /\ heading view = Some (title tab)
                   /\ shown_key view = Some activeTabId.
Proof.
  cbn [renderTile].
  destruct (find (fun t => String.eqb (id t) activeTabId) tabs) as [tab|] eqn:E.
  - apply find_some in E as [Hin Hid]. apply String.eqb_eq in Hid.
    split.
    + split; [discriminate|]. intros H. exfalso. apply H.
      apply in_map_iff. now exists tab.
    + intros view Hv. injection Hv as <-. exists tab. cbn. tauto.
  - split; [|discriminate]. split; [|reflexivity]. intros _ Hin.
    apply in_map_iff in Hin as (tab & Hid & Hin).
    pose proof (find_none _ _ E tab Hin) as H. cbn in H.
    apply String.eqb_neq in H. contradiction.
Qed.

(** X14. The grid always has six slots. The overview and the two trend
    slots are always rendered; the path, source and device slots are
    rendered exactly when the stored tab id is one of the ids of that
    group, each slot on its own. *)
Theorem dashboard_slots (st : State) :
  map isRendered (WebAnalyticsDashboard st)
  = [ true; isPathTab (pathTab st); isSourceTab (sourceTab st);
      isDeviceTab (deviceTab st); true; true ].
Proof.
  destruct st as [fs s d p].
  unfold WebAnalyticsDashboard, tiles, isPathTab, isSourceTab, isDeviceTab,
    includes.
  cbn -[String.eqb].
  rewrite !(String.eqb_sym _ p), !(String.eqb_sym _ s), !(String.eqb_sym _ d).
  rewrite !orb_false_r.
  repeat f_equal.
  - destruct (String.eqb p PathTab.PATH); [reflexivity|].
    destruct (String.eqb p PathTab.INITIAL_PATH); reflexivity.
  - destruct (String.eqb s SourceTab.REFERRING_DOMAIN); [reflexivity|].
    destruct (String.eqb s SourceTab.UTM_SOURCE); [reflexivity|].
    destruct (String.eqb s SourceTab.UTM_CAMPAIGN); reflexivity.
  - destruct (String.eqb d DeviceTab.BROWSER); [reflexivity|].
    destruct (String.eqb d DeviceTab.OS); [reflexivity|].
    destruct (String.eqb d DeviceTab.DEVICE_TYPE); reflexivity.
Qed.

(** Case analysis on the slot index of the six-slot grid. *)
Ltac each_slot i :=
  destruct i as [|[|[|[|[|[|i]]]]]].

(** X15. Clicking a tab link of a rendered slot and rendering again: the
    filter list is untouched, the same slot now shows the clicked tab (it
    is keyed by the link's id and that link is the only active one), and
    every other slot is rendered as before. *)
Theorem tab_click_selects
    (st : State) (i : nat) (view : TileView) (l : TabLink) :
  nth_error (WebAnalyticsDashboard st) i = Some (Some view) ->
  In l (links view) ->
  webAnalyticsFilters (reduce st (link_onClick l)) = webAnalyticsFilters st
  /\ (exists view',
        nth_error (WebAnalyticsDashboard (reduce st (link_onClick l))) i
        = Some (Some view')
        /\ shown_key view' = Some (link_key l)
        /\ map link_key (filter link_active (links view')) = [link_key l])
  /\ forall j, j <> i ->
       nth_error (WebAnalyticsDashboard (reduce st (link_onClick l))) j
       = nth_error (WebAnalyticsDashboard st) j.
Proof.
  destruct st as [fs s d p]. intros Hv Hl.
  unfold WebAnalyticsDashboard, tiles in Hv.
  each_slot i; cbn -[String.eqb] in Hv; try (destruct i; discriminate Hv);
    repeat match type of Hv with
           | context [String.eqb ?a ?b] =>
               destruct (String.eqb a b); cbn -[String.eqb] in Hv
           end;
    try discriminate;
    injection Hv as <-; cbn in Hl;
    repeat (destruct Hl as [<- | Hl]; [|]); try contradiction;
    (split; [reflexivity|]);
    (split; [eexists; split; [reflexivity | split; reflexivity]|]);
    intros j Hj; each_slot j; try reflexivity; contradiction.
Qed.

Lemma tab_click_selects_witness :
  let l := {| link_key := PathTab.INITIAL_PATH; link_active := false;
              link_onClick := SetPathTab PathTab.INITIAL_PATH;
              link_text := "Entry Path" |} in
  webAnalyticsFilters (reduce initialState (link_onClick l))
  = webAnalyticsFilters initialState
  /\ (exists view',
        nth_error (WebAnalyticsDashboard (reduce initialState (link_onClick l))) 1
        = Some (Some view')
        /\ shown_key view' = Some (link_key l)
        /\ map link_key (filter link_active (links view')) = [link_key l])
  /\ forall j, j <> 1 ->
       nth_error (WebAnalyticsDashboard (reduce initialState (link_onClick l))) j
       = nth_error (WebAnalyticsDashboard initialState) j.
Proof.
  intros l.
  apply (tab_click_selects initialState 1
           {| md_col_span := 6; md_row_span := 1;
              heading := Some "Top Paths";
              links :=
                [ {| link_key := PathTab.PATH; link_active := true;
                     link_onClick := SetPathTab PathTab.PATH;
                     link_text := "Path" |}; l ];
              shown_key := Some PathTab.PATH;
              shown_query :=
                DataTableNode true (WebStatsTableQuery [] Page) |} l).
  - reflexivity.
  - right. left. reflexivity.
Defined.

(** X16. The breakdowns whose clicked values go down the set-once path are
    exactly the four over the first visit: the property a cell toggles is
    a set-once name exactly for those, so that on a list the key does not
    match the click appends a [HogQL] filter for them and an event filter
    for the others; and every set-once name is the property of one of
    them. *)
Theorem cell_click_filter_kind :
  (forall (b : WebStatsBreakdown) (full : bool)
          (ps : WebAnalyticsPropertyFilters) (v : string) (st : State),
     exists k,
       BreakdownValueCell (PStr v) (DataTableNode full (WebStatsTableQuery ps b))
       = Markup {| onClick := TogglePropertyFilter k v; text := v |}
       /\ includes setOncePropertyNames k = isInitialBreakdown b
       /\ (existsb (matchesKey k) (webAnalyticsFilters st) = false ->
           exists f,
             webAnalyticsFilters (reduce st (TogglePropertyFilter k v))
             = webAnalyticsFilters st ++ [f]
             /\ type f = if isInitialBreakdown b then HogQL else Event))
  /\ (forall k, includes setOncePropertyNames k = true ->
        exists b, isInitialBreakdown b = true
                  /\ propertyNameSwitch (Member b) = Markup k).
Proof.
  split.
  - intros b full ps v st.
    destruct b; eexists; (split; [reflexivity|]); (split; [reflexivity|]);
      intros H; cbn [reduce webAnalyticsFilters];
      rewrite (toggle_unmatched _ v _ H); eexists; split; reflexivity.
  - intros k Hk. apply setOnce_cases in Hk as [-> | [-> | [-> | ->]]].
    + now exists InitialPage.
    + now exists InitialReferringDomain.
    + now exists InitialUTMSource.
    + now exists InitialUTMCampaign.
Qed.

(** X17. On a typed query neither column component throws. The value cell
    renders nothing exactly when the value is not a string or the query is
    not a breakdown table, and otherwise a link showing the value; the
    column title renders nothing exactly when the query is not a breakdown
    table. *)
Theorem breakdown_column_guards (v : Prim) (q : QuerySchema) :
  (forall raw, BreakdownValueCell v q <> Throws raw)
  /\ (BreakdownValueCell v q = Null
      <-> (forall s, v <> PStr s)
          \/ (forall ps b, sourceOf q <> WebStatsTableQuery ps b))
  /\ (forall l, BreakdownValueCell v q = Markup l -> v = PStr (text l))
  /\ (forall raw, BreakdownValueTitle q <> Throws raw)
  /\ (BreakdownValueTitle q = Null
      <-> forall ps b, sourceOf q <> WebStatsTableQuery ps b).
Proof.
  unfold BreakdownValueCell, BreakdownValueTitle.
  destruct (sourceOf q) as [ps | ps b | t].
  - split; [discriminate|]. split; [split; [right; discriminate | reflexivity]|].
    split; [discriminate|]. split; [discriminate|].
    split; [discriminate | reflexivity].
  - split; [|split; [|split; [|split]]].
    + intros raw. destruct v; [discriminate | | discriminate].
      destruct b; discriminate.
    + split.
      * intros H. left. intros s0 ->. destruct b; discriminate.
      * intros [H | H]; [|exfalso; now apply (H ps b)].
        destruct v; [reflexivity | exfalso; now apply (H s) | reflexivity].
    + intros l. destruct v; [discriminate | | discriminate].
      destruct b; intros H; injection H as <-; reflexivity.
    + intros raw. destruct b; discriminate.
    + split; [destruct b; discriminate|].
      intros H. exfalso. now apply (H ps b).
  - split; [discriminate|]. split; [split; [right; discriminate | reflexivity]|].
    split; [discriminate|]. split; [discriminate|].
    split; [discriminate | reflexivity].
Qed.
